(** * sort_in_threads: a shallow embedding of [sort_in_threads.py]

    The program normalizes names, sorts the files of a directory tree into
    category directories and reports what it did.  Python [str] values are
    sequences of Unicode code points; the filesystem is seen through the
    path strings the program builds.  Exceptions are values of [exn] carried
    by [result]. *)

From Stdlib Require Import List NArith Bool Ascii String Lia DecimalString ListSet.
Import ListNotations.
Local Open Scope N_scope.
Local Open Scope list_scope.


(** ** Python strings *)

Module PyStr.

(** A [str] is a sequence of code points. *)
Definition pystr := list N.

(** An ASCII literal of the source, as code points. *)
Definition str (s : string) : pystr :=
  map N_of_ascii (list_ascii_of_string s).

Definition pystr_eq_dec : forall a b : pystr, {a = b} + {a <> b} :=
  list_eq_dec N.eq_dec.

Fixpoint eqb (a b : pystr) : bool :=
  match a, b with
  | [], [] => true
  | x :: a', y :: b' => (x =? y) && eqb a' b'
  | _, _ => false
  end.

(** [s.startswith(p)] *)
Fixpoint startswith (s p : pystr) {struct p} : bool :=
  match p, s with
  | [], _ => true
  | x :: p', y :: s' => (x =? y) && startswith s' p'
  | _ :: _, [] => false
  end.

(** [s.endswith(p)] *)
Definition endswith (s p : pystr) : bool :=
  startswith (rev s) (rev p).

(** [str(i)] for a non-negative integer. *)
Definition str_of_N (i : N) : pystr :=
  str (NilZero.string_of_uint (N.to_uint i)).

End PyStr.
Import PyStr.

(** The characters the program names. *)
Definition SLASH : N := 47.
Definition DOT : N := 46.
Definition UNDERSCORE : N := 95.
Definition NEWLINE : N := 10.

(** ** Exceptions *)

Inductive exn : Type :=
| TypeError
| IndexError
| FileExistsError
| FileNotFoundError
| NotADirectoryError
| OSError
| ReadError
| SystemExit (message : pystr).

Inductive result (A : Type) : Type :=
| Ok (a : A)
| Raise (e : exn).
Arguments Ok {A} a.
Arguments Raise {A} e.

(** The status with which the interpreter ends when [e] is not caught:
    [sys.exit] with a message, like a traceback, gives status 1. *)
Definition exit_status (e : exn) : N := 1.

(** ** Unicode word characters

    [re] compiles a [str] pattern in Unicode mode: [\w] is [_] or a code
    point for which [str.isalnum] holds.  The table is written out for
    Basic Latin, Latin-1 Supplement and Latin Extended-A, which hold every
    character the program names; beyond U+017F it is the interpreter's
    Unicode database, a parameter of the development. *)

Definition ascii_alnum (c : N) : bool :=
  ((48 <=? c) && (c <=? 57))
  || ((65 <=? c) && (c <=? 90))
  || ((97 <=? c) && (c <=? 122)).

Definition latin1_alnum (c : N) : bool :=
  (c =? 0xAA) || (c =? 0xB2) || (c =? 0xB3) || (c =? 0xB5)
  || (c =? 0xB9) || (c =? 0xBA)
  || ((0xBC <=? c) && (c <=? 0xBE))
  || ((0xC0 <=? c) && (c <=? 0xD6))
  || ((0xD8 <=? c) && (c <=? 0xF6))
  || ((0xF8 <=? c) && (c <=? 0xFF)).

Definition isalnum (unicode_db : N -> bool) (c : N) : bool :=
  if c <? 0x80 then ascii_alnum c
  else if c <? 0x100 then latin1_alnum c
  else if c <? 0x180 then true
  else unicode_db c.

(** [\w] *)
Definition is_word (unicode_db : N -> bool) (c : N) : bool :=
  isalnum unicode_db c || (c =? UNDERSCORE).

(** What the specification calls an ASCII letter, digit or underscore. *)
Definition ascii_word (c : N) : bool :=
  ascii_alnum c || (c =? UNDERSCORE).

(** ** normalize *)

(** The [polish_chars] dict literal, entry by entry, in source order. *)
Definition polish_chars_items : list (N * pystr) :=
  [ (0x105, str "a"); (0x104, str "A");
    (0x107, str "c"); (0x106, str "C");
    (0x119, str "e"); (0x118, str "E");
    (0x142, str "l"); (0x141, str "L");
    (0x144, str "n"); (0x143, str "N");
    (0xF3,  str "o"); (0xD3,  str "O");
    (0x15B, str "s"); (0x15A, [0x15A]);
    (0x17A, str "z"); (0x17B, str "Z");
    (0x17C, str "z"); (0x17B, str "Z") ].

(** A dict display keeps, for a repeated key, the last value given. *)
Fixpoint table_get (k : N) (items : list (N * pystr)) : option pystr :=
  match items with
  | [] => None
  | (k', v) :: r =>
      match table_get k r with
      | Some v' => Some v'
      | None => if k =? k' then Some v else None
      end
  end.

(** [str.translate] on one code point: the mapped string, or the code
    point itself when the table has no entry for it. *)
Definition translate_char (c : N) : pystr :=
  match table_get c polish_chars_items with
  | Some v => v
  | None => [c]
  end.

Definition translate (name : pystr) : pystr :=
  flat_map translate_char name.

Section Normalize.

Variable unicode_db : N -> bool.

(** [re.sub(r"\W+", "_", s)]: every maximal run of non-word characters
    becomes one underscore.  [in_run] tells that the previous character
    belonged to a run already replaced. *)
Fixpoint re_sub_nonword (in_run : bool) (s : pystr) : pystr :=
  match s with
  | [] => []
  | c :: r =>
      if is_word unicode_db c then c :: re_sub_nonword false r
      else if in_run then re_sub_nonword true r
      else UNDERSCORE :: re_sub_nonword true r
  end.

Definition normalize (name : pystr) : pystr :=
  let normalized_name := translate name in
  let normalized_name := re_sub_nonword false normalized_name in
  normalized_name.

End Normalize.

(** ** os.path *)

Module OsPath.

Definition join1 (path b : pystr) : pystr :=
  if startswith b [SLASH] then b
  else
    match path with
    | [] => path ++ b
    | _ => if endswith path [SLASH] then path ++ b
           else path ++ [SLASH] ++ b
    end.

(** [os.path.join(a, *p)] *)
Definition join (a : pystr) (p : list pystr) : pystr :=
  fold_left join1 p a.

(** [(s[:i], s[i:])] for [i = s.rfind(c) + 1], when [c] occurs in [s]. *)
Fixpoint rsplit_after (c : N) (s : pystr) : option (pystr * pystr) :=
  match s with
  | [] => None
  | x :: r =>
      match rsplit_after c r with
      | Some (h, t) => Some (x :: h, t)
      | None => if x =? c then Some ([x], r) else None
      end
  end.

Fixpoint lstrip (c : N) (s : pystr) : pystr :=
  match s with
  | x :: r => if x =? c then lstrip c r else s
  | [] => []
  end.

Definition rstrip (c : N) (s : pystr) : pystr :=
  rev (lstrip c (rev s)).

(** [os.path.split] *)
Definition split (p : pystr) : pystr * pystr :=
  let (head, tail) :=
    match rsplit_after SLASH p with
    | Some ht => ht
    | None => ([], p)
    end in
  let head :=
    match head with
    | [] => head
    | _ => if forallb (N.eqb SLASH) head then head else rstrip SLASH head
    end in
  (head, tail).

Definition dirname (p : pystr) : pystr := fst (split p).

(** [os.path.splitext]: the extension starts at the last dot of the last
    component, unless only dots come before it in that component. *)
Definition splitext (p : pystr) : pystr * pystr :=
  let (dir, base) :=
    match rsplit_after SLASH p with
    | Some ht => ht
    | None => ([], p)
    end in
  match rsplit_after DOT base with
  | Some (h, t) =>
      let before := removelast h in
      if forallb (N.eqb DOT) before then (p, [])
      else (dir ++ before, DOT :: t)
  | None => (p, [])
  end.

End OsPath.

(** ** The filesystem

    A filesystem maps the path strings the program uses to the kind of node
    they name.  The entries are kept in directory-scan order. *)

Inductive kind : Type := File | Dir.

Definition filesystem := list (pystr * kind).

Fixpoint fs_lookup (fs : filesystem) (p : pystr) : option kind :=
  match fs with
  | [] => None
  | (q, k) :: r => if eqb p q then Some k else fs_lookup r p
  end.

(** [os.path.exists]; the empty path names nothing. *)
Definition os_path_exists (fs : filesystem) (p : pystr) : bool :=
  match p with
  | [] => false
  | _ => match fs_lookup fs p with Some _ => true | None => false end
  end.

(** [os.path.isdir] *)
Definition os_path_isdir (fs : filesystem) (p : pystr) : bool :=
  match p with
  | [] => false
  | _ => match fs_lookup fs p with Some Dir => true | _ => false end
  end.

(** The name under which [q] is a direct entry of directory [path]. *)
Definition child_name (path q : pystr) : option pystr :=
  let prefix := if endswith path [SLASH] then path else path ++ [SLASH] in
  if startswith q prefix then
    let name := skipn (List.length prefix) q in
    match name with
    | [] => None
    | _ => if existsb (N.eqb SLASH) name then None else Some name
    end
  else None.

(** A directory entry as [os.scandir] yields it. *)
Record DirEntry : Type := mkDirEntry {
  de_name : pystr;
  de_path : pystr;
  de_is_dir : bool
}.

Definition kind_is_dir (k : kind) : bool :=
  match k with Dir => true | File => false end.

Fixpoint entries_of (fs : filesystem) (path : pystr) : list DirEntry :=
  match fs with
  | [] => []
  | (q, k) :: r =>
      match child_name path q with
      | Some name =>
          mkDirEntry name (OsPath.join path [name]) (kind_is_dir k)
            :: entries_of r path
      | None => entries_of r path
      end
  end.

Definition not_a_directory (fs : filesystem) (p : pystr) : exn :=
  if os_path_exists fs p then NotADirectoryError else FileNotFoundError.

(** [list(os.scandir(path))] *)
Definition os_scandir (fs : filesystem) (path : pystr) : result (list DirEntry) :=
  if os_path_isdir fs path then Ok (entries_of fs path)
  else Raise (not_a_directory fs path).

(** [os.listdir(path)] *)
Definition os_listdir (fs : filesystem) (path : pystr) : result (list pystr) :=
  if os_path_isdir fs path then Ok (map de_name (entries_of fs path))
  else Raise (not_a_directory fs path).

Fixpoint fs_remove (fs : filesystem) (p : pystr) : filesystem :=
  match fs with
  | [] => []
  | (q, k) :: r => if eqb p q then fs_remove r p else (q, k) :: fs_remove r p
  end.

(** [os.rmdir(path)]: only an empty directory can be removed. *)
Definition os_rmdir (fs : filesystem) (path : pystr) : result filesystem :=
  if os_path_isdir fs path then
    match entries_of fs path with
    | [] => Ok (fs_remove fs path)
    | _ => Raise OSError
    end
  else Raise (not_a_directory fs path).

(** ** The world and the monad of the program

    Besides the filesystem the world keeps the mutating calls the program
    issued, in order, and the lines it printed.  A computation transforms
    the world and returns a value or raises; the world survives a raise. *)

Inductive syscall : Type :=
| Rmdir (path : pystr)
| Renames (old new : pystr)
| UnpackArchive (filename extract_dir : pystr).

Record world : Type := mkWorld {
  fs : filesystem;
  calls : list syscall;
  stdout : list pystr
}.

Definition M (A : Type) : Type := world -> result A * world.

Definition ret {A : Type} (a : A) : M A := fun w => (Ok a, w).

Definition raise {A : Type} (e : exn) : M A := fun w => (Raise e, w).

Definition bind {A B : Type} (m : M A) (k : A -> M B) : M B :=
  fun w =>
    match m w with
    | (Ok a, w') => k a w'
    | (Raise e, w') => (Raise e, w')
    end.

Notation "x <- m ;; k" := (bind m (fun x => k))
  (at level 61, m at next level, right associativity).
Notation "m ;;; k" := (bind m (fun _ => k))
  (at level 61, right associativity).

(** [try: m  except FileExistsError: handler] *)
Definition try_except_FileExistsError {A : Type} (m : M A) (handler : M A) : M A :=
  fun w =>
    match m w with
    | (Raise FileExistsError, w') => handler w'
    | r => r
    end.

(** A [for] loop threading the local variables [s] of the enclosing
    function through its body. *)
Fixpoint for_each {A S : Type} (l : list A) (body : S -> A -> M S) (s : S) : M S :=
  match l with
  | [] => ret s
  | x :: r => s' <- body s x ;; for_each r body s'
  end.

(** A query of the filesystem. *)
Definition query {A : Type} (f : filesystem -> result A) : M A :=
  fun w => (f (fs w), w).

(** A mutating call: it is recorded, then performed. *)
Definition perform (c : syscall) (f : filesystem -> result filesystem) : M unit :=
  fun w =>
    let w' := mkWorld (fs w) (calls w ++ [c]) (stdout w) in
    match f (fs w) with
    | Ok fs' => (Ok tt, mkWorld fs' (calls w') (stdout w'))
    | Raise e => (Raise e, w')
    end.

Definition print (line : pystr) : M unit :=
  fun w => (Ok tt, mkWorld (fs w) (calls w) (stdout w ++ [line])).

(** ** set_dest_path *)

Section SetDestPath.

Variable fs0 : filesystem.
Variables path file_name ext : pystr.

(** The name probed for index [i]: the source concatenates [path] and the
    numbered name. *)
Definition probe (i : N) : pystr :=
  path ++ file_name ++ [UNDERSCORE] ++ str_of_N i ++ ext.

(** [for i in range(i, i + n): if not os.path.exists(probe i): ... break] *)
Fixpoint first_free (n : nat) (i : N) : option N :=
  match n with
  | O => None
  | S n' =>
      if negb (os_path_exists fs0 (probe i)) then Some i
      else first_free n' (i + 1)
  end.

Definition set_dest_path : pystr :=
  let full_file_name := file_name ++ ext in
  let file_name :=
    if os_path_exists fs0 (OsPath.join path [full_file_name]) then
      match first_free (N.to_nat 999999) 1 with
      | Some i => file_name ++ [UNDERSCORE] ++ str_of_N i
      | None => file_name
      end
    else file_name in
  let full_file_name := file_name ++ ext in
  OsPath.join path [full_file_name].

End SetDestPath.

(** A call of [set_dest_path] with positional arguments [args]: [path] and
    [file_name] are required, [ext] defaults to the empty string. *)
Definition call_set_dest_path (args : list pystr) : M pystr :=
  match args with
  | [path; file_name] => fun w => (Ok (set_dest_path (fs w) path file_name []), w)
  | [path; file_name; ext] => fun w => (Ok (set_dest_path (fs w) path file_name ext), w)
  | _ => raise TypeError
  end.

(** ** get_path *)

Definition exit_help (argv0 : pystr) : pystr :=
  str "Stars program with command like: " ++ argv0
  ++ str " /user/folder_to_sort/ (path to folder you want to sort).".

(** [argv] is [sys.argv]; [sys.exit(message)] raises [SystemExit]. *)
Definition get_path (argv : list pystr) : M pystr :=
  let exit_help := exit_help (nth 0 argv []) in
  if Nat.ltb (List.length argv) 2 then
    raise (SystemExit (str "Too few command-line arguments." ++ [NEWLINE] ++ exit_help))
  else if Nat.ltb 2 (List.length argv) then
    raise (SystemExit (str "Too many command line arguments." ++ [NEWLINE] ++ exit_help))
  else
    let folder_path := nth 1 argv [] in
    fun w =>
      if os_path_exists (fs w) (OsPath.dirname folder_path)
         && os_path_isdir (fs w) folder_path
      then ret folder_path w
      else raise (SystemExit (folder_path ++ str " is not a proper folder path."
                              ++ [NEWLINE] ++ exit_help)) w.

(** ** Dicts and sets of the program *)

(** A dict with [str] keys, in insertion order. *)
Definition dict (V : Type) : Type := list (pystr * V).

Fixpoint dict_get {V : Type} (d : dict V) (k : pystr) : option V :=
  match d with
  | [] => None
  | (k', v) :: r => if eqb k k' then Some v else dict_get r k
  end.

(** [d.update({k: v})] *)
Fixpoint dict_update {V : Type} (d : dict V) (k : pystr) (v : V) : dict V :=
  match d with
  | [] => [(k, v)]
  | (k', v') :: r =>
      if eqb k k' then (k', v) :: r else (k', v') :: dict_update r k v
  end.

(** [x in l] for a list of strings. *)
Definition str_in (x : pystr) (l : list pystr) : bool :=
  existsb (eqb x) l.

(** [s.add(x)] on a set of strings. *)
Definition set_add_str (x : pystr) (s : set pystr) : set pystr :=
  set_add pystr_eq_dec x s.

(** The names of the category directories. *)
Definition category_names : list pystr :=
  [str "images"; str "video"; str "documents"; str "audio"; str "archives"].

Definition UNSORTED : pystr := str "unsorted".

(** ** prepare_folder and move_files *)

Section Program.

(** The Unicode database behind [\w]. *)
Variable unicode_db : N -> bool.

(** [os.renames(old, new)] and [shutil.unpack_archive(filename,
    extract_dir)] of the platform: the filesystem they leave, or the
    exception they raise. *)
Variable os_renames : filesystem -> pystr -> pystr -> result filesystem.
Variable shutil_unpack_archive : filesystem -> pystr -> pystr -> result filesystem.

(** A call of [os.renames] with positional arguments [args]: [old] and
    [new] are both required. *)
Definition call_os_renames (args : list pystr) : M unit :=
  match args with
  | [old; new] => perform (Renames old new) (fun fs => os_renames fs old new)
  | _ => raise TypeError
  end.

Definition prepare_item (path : pystr) (st : list pystr * list DirEntry)
    (item : DirEntry) : M (list pystr * list DirEntry) :=
  let (subdirectories, files) := st in
  if de_is_dir item then
    temp_list <- query (fun fs => os_listdir fs (de_path item)) ;;
    (if Nat.eqb (List.length temp_list) 0
     then perform (Rmdir (de_path item)) (fun fs => os_rmdir fs (de_path item))
     else ret tt) ;;;
    if negb (str_in (de_name item) category_names) then
      let dir_name := normalize unicode_db (de_name item) in
      let dir_path := OsPath.join path [dir_name] in
      if negb (eqb dir_name (de_name item)) then
        dir_path <-
          for_each files
            (fun dir_path entry =>
               if eqb dir_name (de_name entry)
               then call_set_dest_path [OsPath.join path [dir_name]]
               else ret dir_path)
            dir_path ;;
        renamed <-
          try_except_FileExistsError
            (call_os_renames [OsPath.join path [de_name item; dir_path]] ;;;
             ret true)
            (print (str "Directory " ++ dir_name
                    ++ str " has not been copied, because too many directories with that name already exist.") ;;;
             ret false) ;;
        if renamed then ret (subdirectories ++ [dir_path], files)
        else ret (subdirectories, files)
      else ret (subdirectories ++ [dir_path], files)
    else ret (subdirectories, files)
  else ret (subdirectories, files ++ [item]).

Definition prepare_folder (path : pystr)
    : M (list pystr * dict (list DirEntry)) :=
  folder_items <- query (fun fs => os_scandir fs path) ;;
  st <- for_each folder_items (prepare_item path) ([], []) ;;
  let (subdirectories, files) := st in
  ret (subdirectories, [(path, files)]).

(** The [match ext] statement: the category of the extension; an archive
    is unpacked on the spot. *)
Definition match_ext (path : pystr) (file : DirEntry) (file_name ext : pystr)
    : M pystr :=
  if str_in ext [str ".jpeg"; str ".png"; str ".jpg"; str ".svg"] then
    ret (str "images")
  else if str_in ext [str ".avi"; str ".mp4"; str ".mov"; str ".mkv"] then
    ret (str "video")
  else if str_in ext [str ".doc"; str ".docx"; str ".txt"; str ".pdf";
                      str ".xlsx"; str ".pptx"] then
    ret (str "documents")
  else if str_in ext [str ".mp3"; str ".ogg"; str ".wav"; str ".amr"] then
    ret (str "audio")
  else if str_in ext [str ".zip"; str ".gz"; str ".tar"] then
    let file_type := str "archives" in
    let filename := OsPath.join path [de_name file] in
    let extract_dir := OsPath.join path [file_type; file_name] in
    perform (UnpackArchive filename extract_dir)
      (fun fs => shutil_unpack_archive fs filename extract_dir) ;;;
    ret file_type
  else ret UNSORTED.

Definition move_file (path : pystr)
    (st : dict (set pystr) * dict (list pystr)) (file : DirEntry)
    : M (dict (set pystr) * dict (list pystr)) :=
  let (extensions, paths) := st in
  let (file_name, ext) := OsPath.splitext (de_name file) in
  let file_name := normalize unicode_db file_name in
  file_type <- match_ext path file file_name ext ;;
  (* [None] stands for [continue]; an unsorted file has no [dest_path] *)
  moved <-
    (if negb (eqb file_type UNSORTED) then
       dest_path <- call_set_dest_path [OsPath.join path [file_type]; file_name; ext] ;;
       try_except_FileExistsError
         (call_os_renames [OsPath.join path [de_name file]; dest_path] ;;;
          ret (Some dest_path))
         (print (str "File " ++ file_name ++ ext
                 ++ str " has not been copied, because too many files with that name already exist in the destination directory.") ;;;
          ret None)
     else ret (Some [])) ;;
  match moved with
  | None => ret (extensions, paths)
  | Some dest_path =>
      let paths :=
        match dict_get paths file_type with
        | Some temp_list =>
            let temp_list :=
              if eqb file_type UNSORTED then
                temp_list ++ [OsPath.join path [file_type; de_name file]]
              else
                temp_list ++ [OsPath.join path [file_type; de_name file]
                              ++ str " has moved to: " ++ dest_path] in
            dict_update paths file_type temp_list
        | None => paths
        end in
      let extensions :=
        match dict_get extensions file_type with
        | Some temp_set =>
            let temp_set := set_add_str ext temp_set in
            dict_update extensions file_type temp_set
        | None => extensions
        end in
      ret (extensions, paths)
  end.

Definition initial_extensions : dict (set pystr) :=
  [ (str "images", empty_set pystr); (str "documents", empty_set pystr);
    (str "audio", empty_set pystr); (str "video", empty_set pystr);
    (str "archives", empty_set pystr); (str "unsorted", empty_set pystr) ].

Definition initial_paths : dict (list pystr) :=
  [ (str "images", []); (str "documents", []); (str "audio", []);
    (str "video", []); (str "archives", []); (str "unsorted", []) ].

(** [files_dict] holds one directory: its path and its files. *)
Definition move_files (files_dict : dict (list DirEntry))
    : M (dict (set pystr) * dict (list pystr) * pystr) :=
  match files_dict with
  | [] => raise IndexError
  | (path, files) :: _ =>
      st <- for_each files (move_file path) (initial_extensions, initial_paths) ;;
      let (extensions, paths) := st in
      ret (extensions, paths, path)
  end.

End Program.

(** ** A reference platform

    An instance of the two platform calls, used to run the program on
    concrete filesystems: [rename] is the POSIX one, which puts a file in
    the place of an existing file without a word, and an archive unpacks to
    the members [archive_members] lists for it. *)

Module Platform.

Definition nonempty (s : pystr) : bool :=
  match s with [] => false | _ => true end.

(** [os.makedirs(name)] *)
Fixpoint makedirs (fuel : nat) (fs : filesystem) (name : pystr) : filesystem :=
  match fuel with
  | O => fs ++ [(name, Dir)]
  | S fuel' =>
      let (head, tail) := OsPath.split name in
      let (head, tail) :=
        if nonempty tail then (head, tail) else OsPath.split head in
      let fs :=
        if nonempty head && nonempty tail && negb (os_path_exists fs head)
        then makedirs fuel' fs head else fs in
      fs ++ [(name, Dir)]
  end.

(** The rest of [q] after [old], when [q] is [old] or lies below it. *)
Definition below (old q : pystr) : option pystr :=
  if eqb q old then Some []
  else if startswith q (old ++ [SLASH]) then Some (skipn (List.length old) q)
  else None.

Definition move_entries (fs : filesystem) (old new : pystr) : filesystem :=
  map (fun qk : pystr * kind =>
         match below old (fst qk) with
         | Some rest => (new ++ rest, snd qk)
         | None => qk
         end) fs.

(** [os.rename(old, new)] on POSIX: an existing file at [new] is replaced
    by a file, an existing empty directory by a directory; a directory
    cannot take the place of a file nor a file that of a directory
    ([NotADirectoryError], and [IsADirectoryError], here [OSError]), and a
    directory that is not empty is not replaced ([OSError]). *)
Definition rename (fs : filesystem) (old new : pystr) : result filesystem :=
  if negb (os_path_exists fs old) then Raise FileNotFoundError
  else if eqb old new then Ok fs
  else if negb (os_path_exists fs new) then Ok (move_entries fs old new)
  else
    match os_path_isdir fs old, os_path_isdir fs new with
    | false, false => Ok (move_entries (fs_remove fs new) old new)
    | false, true => Raise OSError
    | true, false => Raise NotADirectoryError
    | true, true =>
        match entries_of fs new with
        | [] => Ok (move_entries (fs_remove fs new) old new)
        | _ => Raise OSError
        end
    end.

(** The loop of [os.removedirs]: prune empty ancestors, stop at the first
    that cannot be removed. *)
Fixpoint prune (fuel : nat) (fs : filesystem) (head tail : pystr) : filesystem :=
  match fuel with
  | O => fs
  | S fuel' =>
      if nonempty head && nonempty tail then
        match os_rmdir fs head with
        | Ok fs' =>
            let (head', tail') := OsPath.split head in prune fuel' fs' head' tail'
        | Raise _ => fs
        end
      else fs
  end.

(** [os.removedirs(name)] inside [try: ... except OSError: pass] *)
Definition removedirs (fs : filesystem) (name : pystr) : filesystem :=
  match os_rmdir fs name with
  | Ok fs' =>
      let (head, tail) := OsPath.split name in
      let (head, tail) :=
        if nonempty tail then (head, tail) else OsPath.split head in
      prune (List.length name) fs' head tail
  | Raise _ => fs
  end.

(** [os.renames(old, new)] *)
Definition os_renames (fs : filesystem) (old new : pystr) : result filesystem :=
  let (head, tail) := OsPath.split new in
  let fs1 :=
    if nonempty head && nonempty tail && negb (os_path_exists fs head)
    then makedirs (List.length head) fs head else fs in
  match rename fs1 old new with
  | Ok fs2 =>
      let (head, tail) := OsPath.split old in
      Ok (if nonempty head && nonempty tail then removedirs fs2 head else fs2)
  | Raise e => Raise e
  end.

(** The suffixes [shutil] has an unpacker registered for. *)
Definition unpack_suffixes : list pystr :=
  [str ".tar.bz2"; str ".tbz2"; str ".tar.gz"; str ".tgz"; str ".tar";
   str ".tar.xz"; str ".txz"; str ".zip"].

Section Unpack.

(** The member names of the archive stored at a path. *)
Variable archive_members : pystr -> list pystr.

(** [shutil.unpack_archive(filename, extract_dir)] *)
Definition shutil_unpack_archive (fs : filesystem) (filename extract_dir : pystr)
    : result filesystem :=
  if existsb (endswith filename) unpack_suffixes then
    if os_path_exists fs filename then
      let fs1 :=
        if os_path_exists fs extract_dir then fs
        else makedirs (List.length extract_dir) fs extract_dir in
      Ok (fs1 ++ map (fun m => (OsPath.join extract_dir [m], File))
                     (filter (fun m => negb (os_path_exists fs1
                                               (OsPath.join extract_dir [m])))
                             (archive_members filename)))
    else Raise ReadError
  else Raise ReadError.

End Unpack.

End Platform.

(** ** Predicates used in the statements *)

(** A code point [translate] leaves alone. *)
Definition untranslated (c : N) : Prop := translate_char c = [c].

(** A path [prepare_folder] hands on: a name of [path] that is not a
    category name and that [normalize] leaves as it is. *)
Definition kept_name (unicode_db : N -> bool) (path d : pystr) : Prop :=
  exists n,
    d = OsPath.join path [n]
    /\ str_in n category_names = false
    /\ normalize unicode_db n = n.

(** No [os.renames] was issued between [w] and [w']. *)
Definition no_new_rename (w w' : world) : Prop :=
  forall old new, In (Renames old new) (calls w') -> In (Renames old new) (calls w).

(** The extension table as the specification words it: the category and
    the extensions it takes, without the dot. *)
Definition spec_table : list (pystr * list pystr) :=
  [ (str "images", [str "jpeg"; str "png"; str "jpg"; str "svg"]);
    (str "video", [str "avi"; str "mp4"; str "mov"; str "mkv"]);
    (str "documents", [str "doc"; str "docx"; str "txt"; str "pdf";
                       str "xlsx"; str "pptx"]);
    (str "audio", [str "mp3"; str "ogg"; str "wav"; str "amr"]);
    (str "archives", [str "zip"; str "gz"; str "tar"]) ].

(** The category of an extension [ext] (with its dot) by that table: an
    exact, case-sensitive match, and [unsorted] when there is none. *)
Definition spec_category (ext : pystr) : pystr :=
  match find (fun row => str_in ext (map (cons DOT) (snd row))) spec_table with
  | Some row => fst row
  | None => UNSORTED
  end.

(** ** Concrete filesystems *)

Module Examples.

(** No code point beyond U+017F is taken for a word character. *)
Definition db0 : N -> bool := fun _ => false.

Definition world_of (f : filesystem) : world := mkWorld f [] [].

(** [/r/images] already holds [photo.jpg] and [photo_1.jpg]. *)
Definition fs_photos : filesystem :=
  [ (str "/r", Dir); (str "/r/images", Dir);
    (str "/r/images/photo.jpg", File);
    (str "/r/images/photo_1.jpg", File) ].

(** The working directory holds a directory [mydir]. *)
Definition fs_mydir : filesystem :=
  [ (str "mydir", Dir); (str "mydir/a.txt", File) ].

(** [/r] holds one empty directory. *)
Definition fs_old_empty : filesystem :=
  [ (str "/r", Dir); (str "/r/old_empty", Dir) ].

(** [/r] holds a directory whose name has a space in it. *)
Definition fs_my_dir : filesystem :=
  [ (str "/r", Dir); (str "/r/my dir", Dir); (str "/r/my dir/f.txt", File) ].

(** [/r] holds a category directory with a file in it. *)
Definition fs_images : filesystem :=
  [ (str "/r", Dir); (str "/r/images", Dir); (str "/r/images/x.jpg", File) ].

(** [/r] holds a picture and a file of no known category. *)
Definition fs_sort : filesystem :=
  [ (str "/r", Dir); (str "/r/photo.jpg", File); (str "/r/x.bin", File) ].

(** [/r] holds one archive. *)
Definition fs_notes : filesystem :=
  [ (str "/r", Dir); (str "/r/notes.zip", File) ].

(** [/r] holds one gzip file that is no tar archive. *)
Definition fs_notes_gz : filesystem :=
  [ (str "/r", Dir); (str "/r/notes.gz", File) ].

(** Every archive of the examples holds the one member [todo.txt]. *)
Definition members : pystr -> list pystr := fun _ => [str "todo.txt"].

Definition photo_jpg : DirEntry :=
  mkDirEntry (str "photo.jpg") (str "/r/photo.jpg") false.

End Examples.

(** ** Further predicates *)

(** From [w] to [w'] nothing was printed, the only calls issued were
    [os.rmdir], no file was lost and nothing was created. *)
Definition only_directories_removed (w w' : world) : Prop :=
  stdout w' = stdout w
  /\ (exists removed, calls w' = calls w ++ map Rmdir removed)
  /\ (forall p, fs_lookup (fs w) p = Some File -> fs_lookup (fs w') p = Some File)
  /\ (forall p k, fs_lookup (fs w') p = Some k -> fs_lookup (fs w) p = Some k).

(** The entries [prepare_folder] hands on as subdirectories, and those it
    keeps as files. *)
Definition is_subdirectory_to_visit (item : DirEntry) : bool :=
  de_is_dir item && negb (str_in (de_name item) category_names).

Definition is_file_entry (item : DirEntry) : bool := negb (de_is_dir item).

(** ** create_report *)

(** [sep.join(l)] *)
Fixpoint join_with (sep : pystr) (l : list pystr) : pystr :=
  match l with
  | [] => []
  | [x] => x
  | x :: r => x ++ sep ++ join_with sep r
  end.

Section Report.

(** [now.strftime('%Y-%m-%d %H:%M:%S')] for the moment of the call. *)
Variable now : pystr.

(** [list(values)] for a set: the order in which the interpreter iterates
    over it. *)
Variable list_of_set : set pystr -> list pystr.

Definition report_header (path : pystr) : pystr :=
  str ">>> Activity report for directory: " ++ path ++ str " - " ++ now
  ++ str ":" ++ [NEWLINE].

(** The report file is opened for appending: [fo] holds the strings
    written to it so far, each [fo.write] adds one. *)
Definition create_report (extensions : dict (set pystr))
    (paths : dict (list pystr)) (path : pystr) (fo : list pystr) : list pystr :=
  let fo := fo ++ [report_header path] in
  let contain_data_to_report :=
    fold_left (fun flag kv =>
                 if Nat.ltb 0 (List.length (snd kv)) then true else flag)
              extensions false in
  if contain_data_to_report then
    let fo := fo ++ [str "Extensions of checked files by category:" ++ [NEWLINE]] in
    let no_transfered_data := true in
    let '(fo, no_transfered_data) :=
      fold_left
        (fun (s : list pystr * bool) (kv : pystr * set pystr) =>
           let (fo, no_transfered_data) := s in
           let (key, values) := kv in
           if Nat.ltb 0 (List.length values) then
             let values := list_of_set values in
             (fo ++ [key ++ str ": " ++ join_with (str " | ") values
                     ++ str ";" ++ [NEWLINE]],
              false)
           else (fo, no_transfered_data))
        extensions (fo, no_transfered_data) in
    let fo := if no_transfered_data then fo ++ [str "---"] else fo in
    let fo := fo ++ [[NEWLINE] ++ str "Files sorted by category:" ++ [NEWLINE]] in
    let '(fo, no_transfered_data) :=
      fold_left
        (fun (s : list pystr * bool) (kv : pystr * list pystr) =>
           let (fo, no_transfered_data) := s in
           let (key, values) := kv in
           if Nat.ltb 0 (List.length values) then
             (fold_left (fun fo value => fo ++ [value ++ str ";" ++ [NEWLINE]])
                        values (fo ++ [key ++ str ":" ++ [NEWLINE]]),
              false)
           else (fo, no_transfered_data))
        paths (fo, no_transfered_data) in
    let fo := if no_transfered_data then fo ++ [str "---"] else fo in
    fo ++ [[NEWLINE] ++ str "--------------------" ++ [NEWLINE; NEWLINE]]
  else fo ++ [str "Nothing to sort." ++ [NEWLINE]].

End Report.

(** The text ends with a newline. *)
Definition ends_with_newline (chunk : pystr) : Prop :=
  exists s, chunk = s ++ [NEWLINE].

(** The two dicts of a report go together: same keys, and a category has
    extensions exactly when it has records. *)
Definition report_consistent (extensions : dict (set pystr))
    (paths : dict (list pystr)) : Prop :=
  Forall2 (fun (e : pystr * set pystr) (p : pystr * list pystr) =>
             fst e = fst p /\ (snd e = [] <-> snd p = []))
          extensions paths.

(** The report in closed form: the lines for the categories that have
    extensions, then the records of the categories that have any. *)
Definition has_entries {A : Type} (kv : pystr * list A) : bool :=
  Nat.ltb 0 (List.length (snd kv)).

Definition extension_lines (list_of_set : set pystr -> list pystr)
    (extensions : dict (set pystr)) : list pystr :=
  map (fun kv : pystr * set pystr =>
         fst kv ++ str ": " ++ join_with (str " | ") (list_of_set (snd kv))
         ++ str ";" ++ [NEWLINE])
      (filter has_entries extensions).

Definition record_lines (paths : dict (list pystr)) : list pystr :=
  flat_map (fun kv : pystr * list pystr =>
              (fst kv ++ str ":" ++ [NEWLINE])
                :: map (fun value => value ++ str ";" ++ [NEWLINE]) (snd kv))
           (filter has_entries paths).

Definition report_body (list_of_set : set pystr -> list pystr)
    (extensions : dict (set pystr)) (paths : dict (list pystr)) : list pystr :=
  if existsb has_entries extensions then
    [str "Extensions of checked files by category:" ++ [NEWLINE]]
    ++ extension_lines list_of_set extensions
    ++ [[NEWLINE] ++ str "Files sorted by category:" ++ [NEWLINE]]
    ++ record_lines paths
    ++ [[NEWLINE] ++ str "--------------------" ++ [NEWLINE; NEWLINE]]
  else [str "Nothing to sort." ++ [NEWLINE]].

(** ** Further concrete filesystems *)

Module MoreExamples.

(** [/r] holds a picture and, after it, a gzip file that is no tar
    archive. *)
Definition fs_photo_then_gz : filesystem :=
  [ (str "/r", Dir); (str "/r/photo.jpg", File); (str "/r/notes.gz", File);
    (str "/r/x.bin", File) ].

(** [/r] holds files of no known category only. *)
Definition fs_unsorted : filesystem :=
  [ (str "/r", Dir); (str "/r/x.bin", File); (str "/r/README", File);
    (str "/r/Photo.JPG", File) ].

Definition notes_gz : DirEntry :=
  mkDirEntry (str "notes.gz") (str "/r/notes.gz") false.

End MoreExamples.

(** The extension of a file name belongs to no category. *)
Definition is_unsorted (file : DirEntry) : Prop :=
  spec_category (snd (OsPath.splitext (de_name file))) = UNSORTED.

(** * Properties *)

(** ** Equality of strings *)

Lemma pystr_eqb_spec (a b : pystr) : reflect (a = b) (eqb a b).
Proof.
  revert b; induction a as [|x a IH]; intros [|y b]; simpl;
    try (constructor; congruence).
  destruct (N.eqb_spec x y) as [->|Hxy]; simpl.
  - destruct (IH b) as [->|Hab]; constructor; congruence.
  - constructor; congruence.
Qed.

Lemma pystr_eqb_refl (a : pystr) : eqb a a = true.
Proof. destruct (pystr_eqb_spec a a); congruence. Qed.

Lemma pystr_eqb_eq (a b : pystr) : eqb a b = true <-> a = b.
Proof. destruct (pystr_eqb_spec a b); split; congruence. Qed.

Lemma pystr_eqb_neq (a b : pystr) : eqb a b = false <-> a <> b.
Proof. destruct (pystr_eqb_spec a b); split; congruence. Qed.

(** ** normalize *)

Section NormalizeFacts.

Variable unicode_db : N -> bool.

Local Abbreviation word := (is_word unicode_db).
Local Abbreviation re_sub := (re_sub_nonword unicode_db).

Lemma is_word_underscore : word UNDERSCORE = true.
Proof. reflexivity. Qed.

(** An ASCII letter, digit or underscore is a word character. *)
Lemma ascii_word_is_word (c : N) : ascii_word c = true -> word c = true.
Proof.
  unfold ascii_word, PyStr.pystr, word, isalnum.
  destruct (c <? 0x80) eqn:Hc; [tauto|].
  apply N.ltb_ge in Hc.
  unfold ascii_alnum, UNDERSCORE; intros H.
  repeat (apply orb_true_iff in H; destruct H as [H|H]);
    try (apply andb_true_iff in H; destruct H as [_ H]; apply N.leb_le in H; lia).
  apply N.eqb_eq in H; lia.
Qed.

(** The substitution leaves word characters only. *)
Lemma re_sub_nonword_words (s : pystr) (in_run : bool) :
  forallb word (re_sub in_run s) = true.
Proof.
  revert in_run; induction s as [|c s IH]; intros in_run; simpl; [reflexivity|].
  destruct (word c) eqn:Hc; simpl.
  - now rewrite Hc, IH.
  - destruct in_run; [apply IH|].
    cbn [forallb]. now rewrite is_word_underscore, IH.
Qed.

(** A string of word characters has no run to replace. *)
Lemma re_sub_nonword_fixed (s : pystr) (in_run : bool) :
  forallb word s = true -> re_sub in_run s = s.
Proof.
  revert in_run; induction s as [|c s IH]; intros in_run; simpl; [reflexivity|].
  intros H; apply andb_true_iff in H; destruct H as [Hc Hs].
  now rewrite Hc, IH.
Qed.

(** Whatever the substitution emits is an underscore or was in the input. *)
Lemma re_sub_nonword_In (s : pystr) (in_run : bool) (c : N) :
  In c (re_sub in_run s) -> c = UNDERSCORE \/ In c s.
Proof.
  revert in_run; induction s as [|x s IH]; intros in_run; simpl; [tauto|].
  destruct (word x).
  - intros [->|H]; [tauto|]. destruct (IH _ H); tauto.
  - destruct in_run.
    + intros H; destruct (IH _ H); tauto.
    + intros [<-|H]; [tauto|]. destruct (IH _ H); tauto.
Qed.

End NormalizeFacts.

Lemma table_get_In (k : N) (items : list (N * pystr)) (v : pystr) :
  table_get k items = Some v -> In v (map snd items).
Proof.
  induction items as [|[k' v'] r IH]; simpl; [discriminate|].
  destruct (table_get k r) as [v''|].
  - intros [= ->]; right; now apply IH.
  - destruct (k =? k'); [intros [= ->]; now left | discriminate].
Qed.

(** Every value of the table is made of code points the table leaves
    alone: the Latin letters have no entry, and U+015A maps to itself. *)
Lemma polish_chars_values_untranslated (v : pystr) (c : N) :
  In v (map snd polish_chars_items) -> In c v -> untranslated c.
Proof.
  intros Hv Hc.
  assert (Hall : forallb (fun v => forallb (fun c => eqb (translate_char c) [c]) v)
                   (map snd polish_chars_items) = true) by reflexivity.
  rewrite forallb_forall in Hall. specialize (Hall v Hv).
  rewrite forallb_forall in Hall. specialize (Hall c Hc).
  now apply pystr_eqb_eq in Hall.
Qed.

Lemma translate_char_untranslated (c c' : N) :
  In c' (translate_char c) -> untranslated c'.
Proof.
  unfold translate_char at 1.
  destruct (table_get c polish_chars_items) as [v|] eqn:Hget.
  - intros Hin. eapply polish_chars_values_untranslated; eauto using table_get_In.
  - intros [<-|[]]. unfold untranslated, translate_char. now rewrite Hget.
Qed.

Lemma translate_fixed (s : pystr) :
  (forall c, In c s -> untranslated c) -> translate s = s.
Proof.
  induction s as [|c s IH]; intros H; simpl; [reflexivity|].
  rewrite (H c (or_introl eq_refl)), IH; [reflexivity|].
  intros c' Hc'; apply H; now right.
Qed.

Lemma translate_In (s : pystr) (c : N) :
  In c (translate s) -> untranslated c.
Proof.
  unfold translate. rewrite in_flat_map. intros [c0 [_ Hc]].
  eapply translate_char_untranslated; eauto.
Qed.

Lemma underscore_untranslated : untranslated UNDERSCORE.
Proof. reflexivity. Qed.

(** An ASCII code point has no entry in the table. *)
Lemma ascii_untranslated (c : N) : c < 0x80 -> untranslated c.
Proof.
  intros Hc. unfold untranslated, translate_char.
  assert (Hkeys : forallb (fun kv => 0x80 <=? fst kv) polish_chars_items = true)
    by reflexivity.
  rewrite forallb_forall in Hkeys.
  assert (Hnone : forall items, (forall kv, In kv items -> 0x80 <= fst kv) ->
                                table_get c items = None).
  { induction items as [|[k v] r IH]; intros H; simpl; [reflexivity|].
    rewrite IH by (intros kv Hkv; apply H; now right).
    specialize (H (k, v) (or_introl eq_refl)); simpl in H.
    destruct (N.eqb_spec c k); [lia|reflexivity]. }
  rewrite Hnone; [reflexivity|].
  intros kv Hkv. apply N.leb_le. now apply Hkeys.
Qed.

Lemma ascii_word_lt (c : N) : ascii_word c = true -> c < 0x80.
Proof.
  unfold ascii_word, ascii_alnum, UNDERSCORE; intros H.
  repeat (apply orb_true_iff in H; destruct H as [H|H]);
    try (apply andb_true_iff in H; destruct H as [_ H]; apply N.leb_le in H; lia).
  apply N.eqb_eq in H; lia.
Qed.

(** The output of [normalize] holds word characters only, in the Unicode
    sense of [\w]. *)
Lemma normalize_words (unicode_db : N -> bool) (name : pystr) :
  forallb (is_word unicode_db) (normalize unicode_db name) = true.
Proof. apply re_sub_nonword_words. Qed.

(** A name made of ASCII letters, digits and underscores is returned
    unchanged. *)
Lemma normalize_ascii_word_unchanged (unicode_db : N -> bool) (name : pystr) :
  forallb ascii_word name = true -> normalize unicode_db name = name.
Proof.
  intros H. rewrite forallb_forall in H. unfold normalize.
  rewrite translate_fixed
    by (intros c Hc; apply ascii_untranslated, ascii_word_lt; auto).
  apply re_sub_nonword_fixed. apply forallb_forall.
  intros c Hc; apply ascii_word_is_word; auto.
Qed.

(** C6: for every string [x], [normalize (normalize x) = normalize x]. *)
Theorem normalize_idempotent (unicode_db : N -> bool) (x : pystr) :
  normalize unicode_db (normalize unicode_db x) = normalize unicode_db x.
Proof.
  unfold normalize at 1.
  rewrite translate_fixed.
  - apply re_sub_nonword_fixed, normalize_words.
  - intros c Hc. unfold normalize in Hc.
    destruct (re_sub_nonword_In _ _ _ _ Hc) as [->|Hin].
    + apply underscore_untranslated.
    + eapply translate_In; eauto.
Qed.

(** C5, at the input U+015A (S with acute): the table maps it to itself
    and [\W] does not match it, so [normalize] returns it, and it is no
    ASCII letter, digit or underscore.  U+0179 (Z with acute) has no entry
    in the table and is returned as well. *)
Theorem normalize_keeps_S_acute (unicode_db : N -> bool) :
  normalize unicode_db [0x15A] = [0x15A]
  /\ forallb ascii_word (normalize unicode_db [0x15A]) = false
  /\ normalize unicode_db [0x179] = [0x179].
Proof. repeat split; reflexivity. Qed.

(** ** set_dest_path *)

Section SetDestPathFacts.

Variable fs0 : filesystem.
Variables path file_name ext : pystr.

(** A free candidate is returned as it is. *)
Lemma set_dest_path_free :
  os_path_exists fs0 (OsPath.join path [file_name ++ ext]) = false ->
  set_dest_path fs0 path file_name ext = OsPath.join path [file_name ++ ext].
Proof. unfold set_dest_path. now intros ->. Qed.

(** The loop stops at the first index whose probe does not exist. *)
Lemma first_free_least (n : nat) (i j : N) :
  first_free fs0 path file_name ext n i = Some j ->
  os_path_exists fs0 (probe path file_name ext j) = false
  /\ i <= j
  /\ forall k, i <= k < j -> os_path_exists fs0 (probe path file_name ext k) = true.
Proof.
  revert i; induction n as [|n IH]; intros i; simpl; [discriminate|].
  destruct (os_path_exists fs0 (probe path file_name ext i)) eqn:Hi; simpl.
  - intros H. destruct (IH _ H) as (Hj & Hle & Hlt).
    repeat split; [assumption|lia|].
    intros k Hk. destruct (N.eq_dec k i) as [->|Hne]; [assumption|].
    apply Hlt; lia.
  - intros [= <-]. repeat split; [assumption|lia|intros k Hk; lia].
Qed.

(** What the probe names: with a separator at the end of [path] it is the
    numbered candidate inside the directory; without one it is a sibling
    of the directory. *)
Lemma probe_with_separator (i : N) :
  endswith path [SLASH] = true ->
  startswith file_name [SLASH] = false ->
  probe path file_name ext i
  = OsPath.join path [(file_name ++ [UNDERSCORE] ++ str_of_N i) ++ ext].
Proof.
  intros Hend Hstart. unfold probe, OsPath.join; cbn [fold_left].
  unfold OsPath.join1. rewrite Hend.
  assert (Hrel : startswith ((file_name ++ [UNDERSCORE] ++ str_of_N i) ++ ext)
                   [SLASH] = false).
  { destruct file_name as [|c r]; [reflexivity|exact Hstart]. }
  rewrite Hrel. destruct path; [discriminate|].
  now rewrite <- !app_assoc.
Qed.

(** With a separator at the end of [path] the resolver does what its
    comment says: the path it returns does not exist, as long as one of
    the 999999 numbered names is free. *)
Lemma set_dest_path_fresh_with_separator :
  endswith path [SLASH] = true ->
  startswith file_name [SLASH] = false ->
  first_free fs0 path file_name ext (N.to_nat 999999) 1 <> None ->
  os_path_exists fs0 (set_dest_path fs0 path file_name ext) = false.
Proof.
  intros Hend Hstart Hsome. unfold set_dest_path.
  destruct (os_path_exists fs0 (OsPath.join path [file_name ++ ext])) eqn:Hcand;
    [|exact Hcand].
  destruct (first_free fs0 path file_name ext (N.to_nat 999999) 1) as [i|] eqn:Hi;
    [|congruence].
  destruct (first_free_least _ _ _ Hi) as (Hfree & _ & _).
  now rewrite <- probe_with_separator.
Qed.

End SetDestPathFacts.

(** C1, at the input [/r/images], [photo], [.jpg] with [photo.jpg] and
    [photo_1.jpg] present: the probe for index 1 is
    [/r/imagesphoto_1.jpg], which does not exist, so the path returned is
    [/r/images/photo_1.jpg], which exists, although [photo_2.jpg] is
    free. *)
Theorem set_dest_path_returns_existing_path :
  probe (str "/r/images") (str "photo") (str ".jpg") 1
    = str "/r/imagesphoto_1.jpg"
  /\ set_dest_path Examples.fs_photos (str "/r/images") (str "photo") (str ".jpg")
     = str "/r/images/photo_1.jpg"
  /\ os_path_exists Examples.fs_photos (str "/r/images/photo_1.jpg") = true
  /\ os_path_exists Examples.fs_photos (str "/r/images/photo_2.jpg") = false.
Proof. repeat split; vm_compute; reflexivity. Qed.

(** ** get_path *)

Lemma rsplit_after_absent (c : N) (s : pystr) :
  existsb (N.eqb c) s = false -> OsPath.rsplit_after c s = None.
Proof.
  induction s as [|x s IH]; simpl; [reflexivity|].
  intros H; apply orb_false_iff in H; destruct H as [Hx Hs].
  rewrite (IH Hs). rewrite N.eqb_sym in Hx. now rewrite Hx.
Qed.

(** A name without a separator has the empty string for its directory. *)
Lemma dirname_bare_name (p : pystr) :
  existsb (N.eqb SLASH) p = false -> OsPath.dirname p = [].
Proof.
  intros H. unfold OsPath.dirname, OsPath.split.
  now rewrite (rsplit_after_absent _ _ H).
Qed.

(** C10: with one argument, [get_path] returns it exactly when
    [os.path.dirname] of it exists and it is a directory, and otherwise
    exits with the usage message and a non-zero status; an argument without
    a path separator is therefore rejected even when it names a
    directory. *)
Theorem get_path_one_argument (w : world) (argv0 folder_path : pystr) :
  let usage :=
    SystemExit (folder_path ++ str " is not a proper folder path."
                ++ [NEWLINE] ++ exit_help argv0) in
  get_path [argv0; folder_path] w
  = (if os_path_exists (fs w) (OsPath.dirname folder_path)
        && os_path_isdir (fs w) folder_path
     then Ok folder_path else Raise usage, w)
  /\ exit_status usage <> 0
  /\ (existsb (N.eqb SLASH) folder_path = false ->
      os_path_isdir (fs w) folder_path = true ->
      get_path [argv0; folder_path] w = (Raise usage, w)).
Proof.
  intros usage.
  assert (Hrun : get_path [argv0; folder_path] w
                 = (if os_path_exists (fs w) (OsPath.dirname folder_path)
                       && os_path_isdir (fs w) folder_path
                    then Ok folder_path else Raise usage, w)).
  { unfold get_path; simpl.
    destruct (os_path_exists (fs w) (OsPath.dirname folder_path)
              && os_path_isdir (fs w) folder_path); reflexivity. }
  split; [exact Hrun|]. split; [discriminate|].
  intros Hbare _. rewrite Hrun, (dirname_bare_name _ Hbare). reflexivity.
Qed.

Lemma get_path_one_argument_witness :
  os_path_isdir Examples.fs_mydir (str "mydir") = true
  /\ exists message,
       get_path [str "sort_in_threads.py"; str "mydir"]
                (Examples.world_of Examples.fs_mydir)
       = (Raise (SystemExit message), Examples.world_of Examples.fs_mydir).
Proof.
  split; [reflexivity|].
  eexists.
  apply (get_path_one_argument (Examples.world_of Examples.fs_mydir)
           (str "sort_in_threads.py") (str "mydir")); reflexivity.
Defined.

(** ** prepare_folder *)

Section PrepareFacts.

Variable unicode_db : N -> bool.
Variable os_renames : filesystem -> pystr -> pystr -> result filesystem.

Local Abbreviation item_step := (prepare_item unicode_db os_renames).
Local Abbreviation scan := (prepare_folder unicode_db os_renames).

(** The loop over [files] calls [set_dest_path] with one argument: it
    either finds no file of that name or raises [TypeError]. *)
Lemma sibling_loop (path dir_name : pystr) (files : list DirEntry)
    (dir_path : pystr) (w : world) :
  let body := fun (dir_path : pystr) (entry : DirEntry) =>
    if eqb dir_name (de_name entry)
    then call_set_dest_path [OsPath.join path [dir_name]]
    else ret dir_path in
  for_each files body dir_path w = (Ok dir_path, w)
  \/ for_each files body dir_path w = (Raise TypeError, w).
Proof.
  intros body. induction files as [|entry files IH]; simpl; [now left|].
  unfold bind, body at 1 3.
  destruct (eqb dir_name (de_name entry)); simpl; [now right|exact IH].
Qed.

(** [os.renames] called with one argument raises [TypeError], which the
    handler for [FileExistsError] lets through. *)
Lemma rename_attempt_raises (arg : pystr) (handler : M bool) (w : world) :
  try_except_FileExistsError
    (call_os_renames os_renames [arg] ;;; ret true) handler w
  = (Raise TypeError, w).
Proof. reflexivity. Qed.

(** A directory whose name [normalize] changes is never renamed: the
    item raises [TypeError] once its listing has been read. *)
Lemma prepare_item_rename_raises (path : pystr) (st : list pystr * list DirEntry)
    (item : DirEntry) (w : world) (listing : list pystr) :
  de_is_dir item = true ->
  os_listdir (fs w) (de_path item) = Ok listing ->
  listing <> [] ->
  str_in (de_name item) category_names = false ->
  normalize unicode_db (de_name item) <> de_name item ->
  item_step path st item w = (Raise TypeError, w).
Proof.
  intros Hdir Hls Hne Hcat Hnorm.
  unfold prepare_item.
  destruct st as [subdirectories files]. rewrite Hdir.
  unfold bind at 1, query. rewrite Hls.
  destruct listing as [|x l]; [congruence|]. cbn [List.length Nat.eqb].
  unfold bind at 1, ret at 1. rewrite Hcat. cbn [negb].
  apply pystr_eqb_neq in Hnorm. rewrite Hnorm. cbn [negb].
  unfold bind at 1.
  destruct (sibling_loop path (normalize unicode_db (de_name item)) files
              (OsPath.join path [normalize unicode_db (de_name item)]) w)
    as [-> | ->]; [|reflexivity].
  unfold bind at 1. now rewrite rename_attempt_raises.
Qed.

(** What one item can do when it does not raise: [subdirectories] grows by
    at most the item's own path, and only for a name that is no category
    name and is already normalized; the only call it may issue is the
    [os.rmdir] of the item. *)
Lemma prepare_item_ok (path : pystr) (st st' : list pystr * list DirEntry)
    (item : DirEntry) (w w' : world) :
  item_step path st item w = (Ok st', w') ->
  (fst st' = fst st
   \/ fst st' = fst st ++ [OsPath.join path [de_name item]]
      /\ str_in (de_name item) category_names = false
      /\ normalize unicode_db (de_name item) = de_name item)
  /\ (calls w' = calls w \/ calls w' = calls w ++ [Rmdir (de_path item)]).
Proof.
  unfold prepare_item. destruct st as [subdirectories files].
  destruct (de_is_dir item).
  2:{ intros [= <- <-]. simpl; auto. }
  unfold bind at 1, query.
  destruct (os_listdir (fs w) (de_path item)) as [temp_list|e]; [|discriminate].
  unfold bind at 1.
  set (after_rmdir :=
         (if Nat.eqb (List.length temp_list) 0
          then perform (Rmdir (de_path item)) (fun fs => os_rmdir fs (de_path item))
          else ret tt) w).
  assert (Hrm : forall r w1, after_rmdir = (r, w1) ->
            calls w1 = calls w \/ calls w1 = calls w ++ [Rmdir (de_path item)]).
  { subst after_rmdir. intros r w1.
    destruct (Nat.eqb (List.length temp_list) 0).
    - unfold perform. destruct (os_rmdir (fs w) (de_path item));
        intros [= <- <-]; simpl; auto.
    - intros [= <- <-]; auto. }
  destruct after_rmdir as [[[]|e] w1] eqn:Hafter; [|discriminate].
  specialize (Hrm _ _ eq_refl).
  destruct (str_in (de_name item) category_names) eqn:Hcat; cbn [negb].
  { intros [= <- <-]. simpl; auto. }
  destruct (eqb (normalize unicode_db (de_name item)) (de_name item)) eqn:Hnorm;
    cbn [negb].
  - apply pystr_eqb_eq in Hnorm. intros [= <- <-]. rewrite Hnorm. simpl; auto.
  - unfold bind at 1.
    destruct (sibling_loop path (normalize unicode_db (de_name item)) files
                (OsPath.join path [normalize unicode_db (de_name item)]) w1)
      as [-> | ->]; [|discriminate].
    unfold bind at 1. rewrite rename_attempt_raises. discriminate.
Qed.

Lemma for_each_prepare_ok (path : pystr) (items : list DirEntry) :
  forall (st st' : list pystr * list DirEntry) (w w' : world),
  for_each items (item_step path) st w = (Ok st', w') ->
  Forall (kept_name unicode_db path) (fst st) ->
  Forall (kept_name unicode_db path) (fst st') /\ no_new_rename w w'.
Proof.
  induction items as [|item items IH]; intros st st' w w'; simpl.
  - intros [= <- <-] Hst. split; [assumption|]. unfold no_new_rename; auto.
  - unfold bind at 1.
    destruct (item_step path st item w) as [[st1|e] w1] eqn:Hitem; [|discriminate].
    intros Hrest Hst.
    destruct (prepare_item_ok _ _ _ _ _ _ Hitem) as [Hsub Hcalls].
    assert (Hst1 : Forall (kept_name unicode_db path) (fst st1)).
    { destruct Hsub as [->|(-> & Hcat & Hnorm)]; [assumption|].
      apply Forall_app; split; [assumption|].
      constructor; [|constructor]. now exists (de_name item). }
    destruct (IH _ _ _ _ Hrest Hst1) as [Hkept Hnone].
    split; [assumption|].
    intros old new Hin. specialize (Hnone _ _ Hin).
    destruct Hcalls as [Heq|Heq]; rewrite Heq in Hnone; [assumption|].
    apply in_app_or in Hnone. destruct Hnone as [H|[H|[]]]; [assumption|discriminate].
Qed.

End PrepareFacts.

(** A normalized name has no separator in front. *)
Lemma normalized_not_absolute (unicode_db : N -> bool) (n : pystr) :
  normalize unicode_db n = n -> startswith n [SLASH] = false.
Proof.
  intros Hn. pose proof (normalize_words unicode_db n) as Hw. rewrite Hn in Hw.
  destruct n as [|c r]; [reflexivity|].
  cbn [forallb] in Hw. apply andb_true_iff in Hw. destruct Hw as [Hc _].
  cbn [startswith]. destruct (N.eqb_spec SLASH c) as [<-|]; [discriminate|reflexivity].
Qed.

(** Two relative names joined to the same path give the same path only if
    they are the same name. *)
Lemma join_relative_inj (path a b : pystr) :
  startswith a [SLASH] = false -> startswith b [SLASH] = false ->
  OsPath.join path [a] = OsPath.join path [b] -> a = b.
Proof.
  intros Ha Hb. unfold OsPath.join; cbn [fold_left]. unfold OsPath.join1.
  rewrite Ha, Hb. destruct path as [|p0 path'].
  - now rewrite !app_nil_l.
  - destruct (endswith (p0 :: path') [SLASH]); intros H.
    + now apply app_inv_head in H.
    + apply app_inv_head in H. now injection H.
Qed.

Lemma category_names_relative (c : pystr) :
  In c category_names -> startswith c [SLASH] = false /\ str_in c category_names = true.
Proof.
  intros H. repeat (destruct H as [<-|H]; [split; reflexivity|]). destruct H.
Qed.

(** C2, at [/r] holding the empty directory [old_empty]: the directory is
    removed and then, because the loop goes on with the same item, its path
    is put on the returned list all the same; scanning that path next
    raises [FileNotFoundError]. *)
Theorem prepare_folder_returns_removed_directory
    (unicode_db : N -> bool)
    (os_renames : filesystem -> pystr -> pystr -> result filesystem) :
  let after := mkWorld [(str "/r", Dir)] [Rmdir (str "/r/old_empty")] [] in
  prepare_folder unicode_db os_renames (str "/r")
    (Examples.world_of Examples.fs_old_empty)
  = (Ok ([str "/r/old_empty"], [(str "/r", [])]), after)
  /\ prepare_folder unicode_db os_renames (str "/r/old_empty") after
     = (Raise FileNotFoundError, after).
Proof. split; vm_compute; reflexivity. Qed.

(** C4, at [/r] holding the directory [my dir] with a file in it:
    [normalize] gives [my_dir], and the rename is never issued, because
    [os.renames] receives one argument; [prepare_folder] raises
    [TypeError], prints nothing and leaves the filesystem as it was. *)
Theorem prepare_folder_rename_raises_TypeError
    (unicode_db : N -> bool)
    (os_renames : filesystem -> pystr -> pystr -> result filesystem) :
  normalize unicode_db (str "my dir") = str "my_dir"
  /\ prepare_folder unicode_db os_renames (str "/r")
       (Examples.world_of Examples.fs_my_dir)
     = (Raise TypeError, Examples.world_of Examples.fs_my_dir).
Proof. split; vm_compute; reflexivity. Qed.

(** C3 as stated fails: [/r/images] holds a file, and the list
    [prepare_folder] returns for [/r] does not have it. *)
Lemma category_directory_not_returned :
  exists subdirectories files_dict w',
    prepare_folder Examples.db0 Platform.os_renames (str "/r")
      (Examples.world_of Examples.fs_images)
    = (Ok (subdirectories, files_dict), w')
    /\ os_listdir Examples.fs_images (str "/r/images") = Ok [str "x.jpg"]
    /\ ~ In (str "/r/images") subdirectories.
Proof.
  exists [], [(str "/r", [])], (Examples.world_of Examples.fs_images).
  repeat split; try (vm_compute; reflexivity). intros [].
Qed.

(** C3, amended: a subdirectory named like a category is left out of the
    rename step and out of the returned list as well: whenever
    [prepare_folder] returns, no category directory of [path] is on the
    list it returns, and it has issued no rename. *)
Theorem prepare_folder_skips_category_directories
    (unicode_db : N -> bool)
    (os_renames : filesystem -> pystr -> pystr -> result filesystem)
    (path : pystr) (w w' : world)
    (subdirectories : list pystr) (files_dict : dict (list DirEntry))
    (c : pystr) :
  prepare_folder unicode_db os_renames path w
    = (Ok (subdirectories, files_dict), w') ->
  In c category_names ->
  ~ In (OsPath.join path [c]) subdirectories /\ no_new_rename w w'.
Proof.
  unfold prepare_folder. unfold bind at 1, query.
  destruct (os_scandir (fs w) path) as [folder_items|e]; [|discriminate].
  unfold bind at 1.
  destruct (for_each folder_items (prepare_item unicode_db os_renames path)
              ([], []) w)
    as [[[subs files]|e] w1] eqn:Hloop; [|discriminate].
  intros [= <- <- <-] Hc.
  destruct (for_each_prepare_ok unicode_db os_renames path folder_items
              _ _ _ _ Hloop (Forall_nil _)) as [Hkept Hnone].
  split; [|exact Hnone].
  intros Hin. rewrite Forall_forall in Hkept.
  destruct (Hkept _ Hin) as (n & Heq & Hcat & Hnorm).
  destruct (category_names_relative _ Hc) as [Hrel Hmem].
  apply join_relative_inj in Heq;
    [|assumption|now apply normalized_not_absolute with unicode_db].
  congruence.
Qed.

Lemma prepare_folder_skips_category_directories_witness :
  ~ In (str "/r/images") [] /\
  no_new_rename (Examples.world_of Examples.fs_images)
                (Examples.world_of Examples.fs_images).
Proof.
  apply (prepare_folder_skips_category_directories
           Examples.db0 Platform.os_renames (str "/r")
           (Examples.world_of Examples.fs_images)
           (Examples.world_of Examples.fs_images)
           [] [(str "/r", [])] (str "images")).
  - vm_compute; reflexivity.
  - left; reflexivity.
Defined.

(** ** move_files *)

Section MoveFacts.

Variable unicode_db : N -> bool.
Variable os_renames : filesystem -> pystr -> pystr -> result filesystem.
Variable shutil_unpack_archive : filesystem -> pystr -> pystr -> result filesystem.

Local Abbreviation classify := (match_ext shutil_unpack_archive).
Local Abbreviation sort_one := (move_file unicode_db os_renames shutil_unpack_archive).

(** The [match] statement follows the table of the specification, and
    unpacks on the way when the category is [archives]. *)
Lemma match_ext_spec (path : pystr) (file : DirEntry) (file_name ext : pystr) :
  classify path file file_name ext
  = if eqb (spec_category ext) (str "archives") then
      let filename := OsPath.join path [de_name file] in
      let extract_dir := OsPath.join path [str "archives"; file_name] in
      perform (UnpackArchive filename extract_dir)
        (fun fs => shutil_unpack_archive fs filename extract_dir) ;;;
      ret (str "archives")
    else ret (spec_category ext).
Proof.
  unfold match_ext, spec_category, spec_table.
  cbn [find snd fst].
  change (map (cons DOT) [str "jpeg"; str "png"; str "jpg"; str "svg"])
    with [str ".jpeg"; str ".png"; str ".jpg"; str ".svg"].
  change (map (cons DOT) [str "avi"; str "mp4"; str "mov"; str "mkv"])
    with [str ".avi"; str ".mp4"; str ".mov"; str ".mkv"].
  change (map (cons DOT) [str "doc"; str "docx"; str "txt"; str "pdf";
                          str "xlsx"; str "pptx"])
    with [str ".doc"; str ".docx"; str ".txt"; str ".pdf"; str ".xlsx";
          str ".pptx"].
  change (map (cons DOT) [str "mp3"; str "ogg"; str "wav"; str "amr"])
    with [str ".mp3"; str ".ogg"; str ".wav"; str ".amr"].
  change (map (cons DOT) [str "zip"; str "gz"; str "tar"])
    with [str ".zip"; str ".gz"; str ".tar"].
  destruct (str_in ext [str ".jpeg"; str ".png"; str ".jpg"; str ".svg"]);
    [reflexivity|].
  destruct (str_in ext [str ".avi"; str ".mp4"; str ".mov"; str ".mkv"]);
    [reflexivity|].
  destruct (str_in ext [str ".doc"; str ".docx"; str ".txt"; str ".pdf";
                        str ".xlsx"; str ".pptx"]); [reflexivity|].
  destruct (str_in ext [str ".mp3"; str ".ogg"; str ".wav"; str ".amr"]);
    [reflexivity|].
  destruct (str_in ext [str ".zip"; str ".gz"; str ".tar"]); reflexivity.
Qed.

End MoveFacts.

Lemma spec_category_cases (ext : pystr) :
  In (spec_category ext) (category_names ++ [UNSORTED]).
Proof.
  unfold spec_category, spec_table. cbn [find snd fst].
  repeat match goal with
         | |- context [if ?b then _ else _] => destruct b
         end; cbn; tauto.
Qed.

(** An extension of the table starts with its dot. *)
Lemma spec_category_sorted_dot (ext : pystr) :
  spec_category ext <> UNSORTED -> exists e, ext = DOT :: e.
Proof.
  unfold spec_category.
  destruct (find (fun row => str_in ext (map (cons DOT) (snd row))) spec_table)
    as [row|] eqn:Hfind; [|congruence].
  intros _. apply find_some in Hfind. destruct Hfind as [_ Hin].
  unfold str_in in Hin. apply existsb_exists in Hin.
  destruct Hin as (x & Hx & Heq). apply pystr_eqb_eq in Heq. subst x.
  apply in_map_iff in Hx. destruct Hx as (e & <- & _). now exists e.
Qed.

Lemma startswith_app (p q : pystr) : startswith (p ++ q) p = true.
Proof.
  induction p as [|c p IH]; [reflexivity|].
  cbn [app startswith]. now rewrite N.eqb_refl, IH.
Qed.

(** A category directory of [path] is a non-empty path that does not end
    with the separator. *)
Lemma category_directory_open (path c : pystr) :
  In c category_names ->
  OsPath.join path [c] <> [] /\ endswith (OsPath.join path [c]) [SLASH] = false.
Proof.
  intros H. unfold OsPath.join; cbn [fold_left]. unfold OsPath.join1.
  repeat (destruct H as [<-|H];
    [ change (startswith (str _) [SLASH]) with false; cbv iota;
      destruct path as [|p0 path'];
      [ split; [discriminate|reflexivity]
      | destruct (endswith (p0 :: path') [SLASH]);
        (split; [discriminate|]);
        unfold endswith; rewrite ?rev_app_distr; reflexivity ]
    | ]).
  destruct H.
Qed.

(** The resolver returns a path inside the directory it is given, when
    that directory is non-empty, does not end with the separator, and the
    name does not start with one. *)
Lemma set_dest_path_in_directory (fs0 : filesystem) (path file_name ext : pystr) :
  path <> [] -> endswith path [SLASH] = false ->
  startswith (file_name ++ ext) [SLASH] = false ->
  startswith (set_dest_path fs0 path file_name ext) (path ++ [SLASH]) = true.
Proof.
  intros Hne Hend Hrel. unfold set_dest_path.
  set (chosen := if os_path_exists fs0 (OsPath.join path [file_name ++ ext])
                 then match first_free fs0 path file_name ext (N.to_nat 999999) 1 with
                      | Some i => file_name ++ [UNDERSCORE] ++ str_of_N i
                      | None => file_name
                      end
                 else file_name).
  assert (Hchosen : startswith (chosen ++ ext) [SLASH] = false).
  { subst chosen.
    destruct (os_path_exists fs0 (OsPath.join path [file_name ++ ext]));
      [|assumption].
    destruct (first_free fs0 path file_name ext (N.to_nat 999999) 1);
      [|assumption].
    destruct file_name as [|c r]; [reflexivity|exact Hrel]. }
  unfold OsPath.join; cbn [fold_left]. unfold OsPath.join1.
  rewrite Hchosen, Hend. destruct path as [|p0 path']; [congruence|].
  rewrite app_assoc. apply startswith_app.
Qed.

Lemma normalized_name_relative (unicode_db : N -> bool) (base e : pystr) :
  startswith (normalize unicode_db base ++ DOT :: e) [SLASH] = false.
Proof.
  pose proof (normalize_words unicode_db base) as Hw.
  destruct (normalize unicode_db base) as [|c r]; [reflexivity|].
  cbn [forallb] in Hw. apply andb_true_iff in Hw. destruct Hw as [Hc _].
  cbn [app startswith]. destruct (N.eqb_spec SLASH c) as [<-|]; [discriminate|reflexivity].
Qed.

(** The destination of a categorized file lies in the category directory. *)
Lemma destination_in_category (unicode_db : N -> bool) (fs0 : filesystem)
    (path base ext : pystr) :
  spec_category ext <> UNSORTED ->
  startswith
    (set_dest_path fs0 (OsPath.join path [spec_category ext])
       (normalize unicode_db base) ext)
    (OsPath.join path [spec_category ext] ++ [SLASH]) = true.
Proof.
  intros Hsorted.
  destruct (spec_category_sorted_dot ext Hsorted) as [e ->].
  pose proof (spec_category_cases (DOT :: e)) as Hin.
  apply in_app_or in Hin. destruct Hin as [Hin|[Heq|[]]]; [|congruence].
  destruct (category_directory_open path _ Hin) as [Hne Hend].
  apply set_dest_path_in_directory; auto using normalized_name_relative.
Qed.

(** The match is exact and case-sensitive. *)
Example upper_case_extension_unsorted :
  spec_category (str ".JPG") = UNSORTED /\ spec_category (str ".jpg") = str "images".
Proof. split; reflexivity. Qed.

Lemma spec_category_eqb_unsorted (ext : pystr) :
  spec_category ext <> UNSORTED -> eqb (spec_category ext) UNSORTED = false.
Proof. intros H. now apply pystr_eqb_neq. Qed.

(** One file, as long as the platform calls return: the extension is
    classified by an exact, case-sensitive match against the table; an
    unsorted file leaves the world as it is; a file of a category is
    handed to [os.renames] with the path the resolver chooses for the
    normalized base name and the extension inside [path/category], an
    archive after it has been unpacked. *)
Theorem move_file_sorts_by_extension
    (unicode_db : N -> bool)
    (os_renames shutil_unpack_archive :
       filesystem -> pystr -> pystr -> result filesystem)
    (path : pystr) (st : dict (set pystr) * dict (list pystr))
    (file : DirEntry) (w : world) :
  let base := normalize unicode_db (fst (OsPath.splitext (de_name file))) in
  let ext := snd (OsPath.splitext (de_name file)) in
  let category := spec_category ext in
  let source := OsPath.join path [de_name file] in
  let run := move_file unicode_db os_renames shutil_unpack_archive path st file in
  (category = UNSORTED -> exists st', run w = (Ok st', w))
  /\ (category <> UNSORTED -> category <> str "archives" ->
      let dest := set_dest_path (fs w) (OsPath.join path [category]) base ext in
      startswith dest (OsPath.join path [category] ++ [SLASH]) = true
      /\ forall fs', os_renames (fs w) source dest = Ok fs' ->
         exists st',
           run w = (Ok st', mkWorld fs' (calls w ++ [Renames source dest]) (stdout w)))
  /\ (category = str "archives" ->
      let extract_dir := OsPath.join path [category; base] in
      forall fs1, shutil_unpack_archive (fs w) source extract_dir = Ok fs1 ->
      let dest := set_dest_path fs1 (OsPath.join path [category]) base ext in
      startswith dest (OsPath.join path [category] ++ [SLASH]) = true
      /\ forall fs2, os_renames fs1 source dest = Ok fs2 ->
         exists st',
           run w = (Ok st',
                    mkWorld fs2
                      (calls w ++ [UnpackArchive source extract_dir;
                                   Renames source dest])
                      (stdout w))).
Proof.
  intros base ext category source run.
  subst run. unfold move_file. destruct st as [extensions paths].
  subst base ext. destruct (OsPath.splitext (de_name file)) as [file_name ext].
  cbn [fst snd] in *. subst category source.
  rewrite match_ext_spec.
  split; [|split].
  - intros Hcat. rewrite Hcat. cbn [eqb UNSORTED].
    change (eqb UNSORTED (str "archives")) with false. cbv iota.
    unfold bind at 1, ret at 1. rewrite pystr_eqb_refl. cbn [negb].
    unfold bind at 1, ret at 1.
    eexists. reflexivity.
  - intros Hsorted Hplain. split; [now apply destination_in_category|].
    intros fs' Hmove.
    apply pystr_eqb_neq in Hplain. rewrite Hplain.
    unfold bind at 1, ret at 1.
    rewrite (spec_category_eqb_unsorted _ Hsorted). cbn [negb].
    unfold bind at 1. unfold bind at 1. cbn [call_set_dest_path].
    unfold try_except_FileExistsError, bind at 1.
    cbn [call_os_renames]. unfold perform. cbn [fs calls stdout].
    rewrite Hmove. unfold ret at 1.
    eexists. reflexivity.
  - intros Harch fs1 Hunpack.
    split; [apply destination_in_category; rewrite Harch; discriminate|].
    intros fs2 Hmove. rewrite Harch in *. rewrite pystr_eqb_refl.
    cbv zeta. unfold bind at 1. unfold bind at 1.
    unfold perform at 1. rewrite Hunpack. unfold ret at 1.
    change (eqb (str "archives") UNSORTED) with false. cbn [negb].
    unfold bind at 1. unfold bind at 1. cbn [call_set_dest_path].
    unfold try_except_FileExistsError, bind at 1.
    cbn [call_os_renames]. unfold perform. cbn [fs calls stdout].
    rewrite Hmove. unfold ret at 1. rewrite <- app_assoc.
    eexists. reflexivity.
Qed.

Lemma move_file_sorts_by_extension_witness :
  exists st',
    move_file Examples.db0 Platform.os_renames
      (Platform.shutil_unpack_archive Examples.members)
      (str "/r") (initial_extensions, initial_paths) Examples.photo_jpg
      (Examples.world_of Examples.fs_sort)
    = (Ok st',
       mkWorld [ (str "/r", Dir); (str "/r/images/photo.jpg", File);
                 (str "/r/x.bin", File); (str "/r/images", Dir) ]
               [Renames (str "/r/photo.jpg") (str "/r/images/photo.jpg")]
               []).
Proof.
  pose proof (move_file_sorts_by_extension Examples.db0 Platform.os_renames
                (Platform.shutil_unpack_archive Examples.members)
                (str "/r") (initial_extensions, initial_paths)
                Examples.photo_jpg (Examples.world_of Examples.fs_sort)) as H.
  cbv zeta in H. destruct H as (_ & H & _).
  destruct H as [_ H]; [vm_compute; discriminate | vm_compute; discriminate |].
  apply (H [ (str "/r", Dir); (str "/r/images/photo.jpg", File);
             (str "/r/x.bin", File); (str "/r/images", Dir) ]).
  vm_compute. reflexivity.
Defined.

(** When unpacking raises, the archive has not been moved: [move_file]
    raises after the one call to [shutil.unpack_archive]. *)
Lemma move_file_unpack_raises
    (unicode_db : N -> bool)
    (os_renames shutil_unpack_archive :
       filesystem -> pystr -> pystr -> result filesystem)
    (path : pystr) (st : dict (set pystr) * dict (list pystr))
    (file : DirEntry) (w : world) (e : exn) :
  let base := normalize unicode_db (fst (OsPath.splitext (de_name file))) in
  let ext := snd (OsPath.splitext (de_name file)) in
  let source := OsPath.join path [de_name file] in
  let extract_dir := OsPath.join path [str "archives"; base] in
  spec_category ext = str "archives" ->
  shutil_unpack_archive (fs w) source extract_dir = Raise e ->
  move_file unicode_db os_renames shutil_unpack_archive path st file w
  = (Raise e,
     mkWorld (fs w) (calls w ++ [UnpackArchive source extract_dir]) (stdout w)).
Proof.
  intros base ext source extract_dir Harch Hunpack.
  unfold move_file. destruct st as [extensions paths].
  subst base ext extract_dir source.
  destruct (OsPath.splitext (de_name file)) as [file_name ext].
  cbn [fst snd] in *. rewrite match_ext_spec, Harch, pystr_eqb_refl.
  cbv zeta. unfold bind at 1. unfold bind at 1.
  unfold perform at 1. now rewrite Hunpack.
Qed.

(** C8, at [/r] holding [notes.zip]: the archive is unpacked from
    [/r/notes.zip] into [/r/archives/notes] first and moved to
    [/r/archives/notes.zip] afterwards. *)
Theorem archive_unpacked_before_move (unicode_db : N -> bool) :
  exists report w',
    move_files unicode_db Platform.os_renames
      (Platform.shutil_unpack_archive Examples.members)
      [(str "/r", entries_of Examples.fs_notes (str "/r"))]
      (Examples.world_of Examples.fs_notes)
    = (Ok report, w')
    /\ calls w'
       = [ UnpackArchive (str "/r/notes.zip") (str "/r/archives/notes");
           Renames (str "/r/notes.zip") (str "/r/archives/notes.zip") ].
Proof. do 2 eexists. split; vm_compute; reflexivity. Qed.

(** A gzip file that is no tar archive is classified as an archive, has
    no unpacker, and so is never moved. *)
Lemma gz_file_not_moved (unicode_db : N -> bool) :
  move_files unicode_db Platform.os_renames
    (Platform.shutil_unpack_archive Examples.members)
    [(str "/r", entries_of Examples.fs_notes_gz (str "/r"))]
    (Examples.world_of Examples.fs_notes_gz)
  = (Raise ReadError,
     mkWorld Examples.fs_notes_gz
       [UnpackArchive (str "/r/notes.gz") (str "/r/archives/notes")] []).
Proof. vm_compute; reflexivity. Qed.

(** C9, at [/r] holding [photo.jpg] and [x.bin]: the record of the moved
    file names [/r/images/photo.jpg] as its source, where the file was
    moved from [/r/photo.jpg], and the record of the unsorted file is
    [/r/unsorted/x.bin], where the file is [/r/x.bin]. *)
Theorem move_files_records_category_path (unicode_db : N -> bool) :
  exists extensions paths w',
    move_files unicode_db Platform.os_renames
      (Platform.shutil_unpack_archive Examples.members)
      [(str "/r", entries_of Examples.fs_sort (str "/r"))]
      (Examples.world_of Examples.fs_sort)
    = (Ok (extensions, paths, str "/r"), w')
    /\ calls w' = [Renames (str "/r/photo.jpg") (str "/r/images/photo.jpg")]
    /\ dict_get paths (str "images")
       = Some [str "/r/images/photo.jpg has moved to: /r/images/photo.jpg"]
    /\ dict_get paths (str "unsorted") = Some [str "/r/unsorted/x.bin"]
    /\ os_path_exists (fs w') (str "/r/x.bin") = true
    /\ os_path_exists (fs w') (str "/r/unsorted/x.bin") = false.
Proof. do 3 eexists. repeat split; vm_compute; reflexivity. Qed.

(** C7, at [/r] holding [notes.gz], a gzip file that is no tar archive:
    the table puts [.gz] under [archives], but the file is unpacked before
    it is moved and [shutil] has no unpacker for it, so [move_files]
    raises [ReadError] with [os.renames] never called, whatever
    [os.renames] would do: the file stays at [/r/notes.gz] and nothing
    is at [/r/archives/notes.gz]. *)
Theorem gz_archive_classified_but_never_moved
    (unicode_db : N -> bool)
    (os_renames : filesystem -> pystr -> pystr -> result filesystem) :
  spec_category (snd (OsPath.splitext (str "notes.gz"))) = str "archives"
  /\ exists w',
       move_files unicode_db os_renames
         (Platform.shutil_unpack_archive Examples.members)
         [(str "/r", entries_of Examples.fs_notes_gz (str "/r"))]
         (Examples.world_of Examples.fs_notes_gz)
       = (Raise ReadError, w')
       /\ calls w'
          = [UnpackArchive (str "/r/notes.gz") (str "/r/archives/notes")]
       /\ os_path_exists (fs w') (str "/r/notes.gz") = true
       /\ os_path_exists (fs w') (str "/r/archives/notes.gz") = false.
Proof.
  split; [reflexivity|].
  exists (mkWorld Examples.fs_notes_gz
            [UnpackArchive (str "/r/notes.gz") (str "/r/archives/notes")] []).
  repeat split; vm_compute; reflexivity.
Qed.

(** * Further properties *)

(** ** normalize, further *)

(** Every value of the table is one character long, so [translate] keeps
    the length. *)
Lemma translate_char_length (c : N) : List.length (translate_char c) = 1%nat.
Proof.
  unfold translate_char.
  destruct (table_get c polish_chars_items) as [v|] eqn:Hget; [|reflexivity].
  apply table_get_In in Hget.
  assert (Hall : forallb (fun v => Nat.eqb (List.length v) 1)
                   (map snd polish_chars_items) = true) by reflexivity.
  rewrite forallb_forall in Hall. now apply PeanoNat.Nat.eqb_eq, Hall.
Qed.

Lemma translate_length (s : pystr) : List.length (translate s) = List.length s.
Proof.
  induction s as [|c s IH]; [reflexivity|].
  unfold translate in *. cbn [flat_map]. rewrite length_app, translate_char_length, IH.
  reflexivity.
Qed.

Lemma re_sub_nonword_length (unicode_db : N -> bool) (s : pystr) (in_run : bool) :
  (List.length (re_sub_nonword unicode_db in_run s) <= List.length s)%nat.
Proof.
  revert in_run; induction s as [|c s IH]; intros in_run; cbn [re_sub_nonword List.length];
    [lia|].
  destruct (is_word unicode_db c); [specialize (IH false); cbn [List.length]; lia|].
  destruct in_run; [specialize (IH true); lia|].
  specialize (IH true); cbn [List.length]; lia.
Qed.

(** X1: the output of [normalize] is made of word characters only, and so
    holds no path separator, no dot and no space: it is one path
    component in which [os.path.splitext] finds no extension. *)
Theorem normalize_output_is_one_component (unicode_db : N -> bool) (name : pystr) :
  forallb (fun c => is_word unicode_db c
                    && negb (c =? SLASH) && negb (c =? DOT) && negb (c =? 32))
          (normalize unicode_db name) = true.
Proof.
  apply forallb_forall. intros c Hc.
  pose proof (normalize_words unicode_db name) as Hw.
  rewrite forallb_forall in Hw. specialize (Hw c Hc). rewrite Hw.
  destruct (N.eqb_spec c SLASH) as [->|_]; [discriminate|].
  destruct (N.eqb_spec c DOT) as [->|_]; [discriminate|].
  destruct (N.eqb_spec c 32) as [->|_]; [discriminate|reflexivity].
Qed.

(** X2: [normalize] never makes a name longer. *)
Theorem normalize_length (unicode_db : N -> bool) (name : pystr) :
  (List.length (normalize unicode_db name) <= List.length name)%nat.
Proof.
  unfold normalize. rewrite <- (translate_length name).
  apply re_sub_nonword_length.
Qed.

(** X3: the names [normalize] returns unchanged are exactly those made of
    word characters the table does not translate; these are the directory
    names [prepare_folder] does not try to rename. *)
Theorem normalize_fixed_iff (unicode_db : N -> bool) (name : pystr) :
  normalize unicode_db name = name
  <-> forallb (fun c => is_word unicode_db c && eqb (translate_char c) [c]) name
      = true.
Proof.
  split.
  - intros Hfix. apply forallb_forall. intros c Hc.
    pose proof (normalize_words unicode_db name) as Hw.
    rewrite Hfix, forallb_forall in Hw. rewrite (Hw c Hc). cbn [andb].
    apply pystr_eqb_eq. rewrite <- Hfix in Hc. unfold normalize in Hc.
    destruct (re_sub_nonword_In _ _ _ _ Hc) as [->|Hin].
    + apply underscore_untranslated.
    + eapply translate_In; eauto.
  - intros H. rewrite forallb_forall in H. unfold normalize.
    rewrite translate_fixed.
    + apply re_sub_nonword_fixed, forallb_forall. intros c Hc.
      specialize (H c Hc). now apply andb_true_iff in H.
    + intros c Hc. specialize (H c Hc). apply andb_true_iff in H.
      now apply pystr_eqb_eq.
Qed.

Lemma ascii_is_word_ascii_word (unicode_db : N -> bool) (c : N) :
  c < 0x80 -> is_word unicode_db c = true -> ascii_word c = true.
Proof.
  intros Hc. unfold is_word, isalnum, ascii_word.
  apply N.ltb_lt in Hc. now rewrite Hc.
Qed.

(** X4: on a name of ASCII characters the output has ASCII letters,
    digits and underscores only. *)
Theorem normalize_ascii_input (unicode_db : N -> bool) (name : pystr) :
  forallb (fun c => c <? 0x80) name = true ->
  forallb ascii_word (normalize unicode_db name) = true.
Proof.
  intros H. rewrite forallb_forall in H.
  assert (Hlt : forall c, In c name -> c < 0x80)
    by (intros c Hc; apply N.ltb_lt; auto).
  unfold normalize.
  rewrite translate_fixed by (intros c Hc; apply ascii_untranslated; auto).
  apply forallb_forall. intros c Hc.
  pose proof (re_sub_nonword_words unicode_db name false) as Hw.
  rewrite forallb_forall in Hw. specialize (Hw c Hc).
  destruct (re_sub_nonword_In _ _ _ _ Hc) as [->|Hin]; [reflexivity|].
  eapply ascii_is_word_ascii_word; eauto.
Qed.

Lemma normalize_ascii_input_witness :
  forallb ascii_word (normalize Examples.db0 (str "photo (1)")) = true.
Proof. apply normalize_ascii_input. reflexivity. Defined.

(** ** os.path, further *)

Lemma rsplit_after_None (c : N) (s : pystr) :
  OsPath.rsplit_after c s = None -> existsb (N.eqb c) s = false.
Proof.
  induction s as [|x s IH]; cbn [OsPath.rsplit_after existsb]; [reflexivity|].
  destruct (OsPath.rsplit_after c s) as [[h t]|]; [discriminate|].
  destruct (N.eqb_spec x c) as [->|Hne]; [discriminate|]. intros _.
  destruct (N.eqb_spec c x) as [->|_]; [congruence|]. now apply IH.
Qed.

Lemma rsplit_after_Some (c : N) (s h t : pystr) :
  OsPath.rsplit_after c s = Some (h, t) ->
  s = h ++ t /\ (exists h', h = h' ++ [c]) /\ existsb (N.eqb c) t = false.
Proof.
  revert h t; induction s as [|x s IH]; intros h t; cbn [OsPath.rsplit_after];
    [discriminate|].
  destruct (OsPath.rsplit_after c s) as [[h0 t0]|] eqn:Hs.
  - intros [= <- <-]. destruct (IH _ _ eq_refl) as (-> & [h' ->] & Ht).
    repeat split; [|assumption]. now exists (x :: h').
  - destruct (N.eqb_spec x c) as [->|]; [|discriminate].
    intros [= <- <-]. repeat split.
    + now exists [].
    + now apply rsplit_after_None.
Qed.

Lemma rsplit_after_last (c : N) (h t : pystr) :
  existsb (N.eqb c) t = false ->
  OsPath.rsplit_after c (h ++ c :: t) = Some (h ++ [c], t).
Proof.
  intros Ht. induction h as [|x h IH]; cbn [app OsPath.rsplit_after].
  - now rewrite (rsplit_after_absent _ _ Ht), N.eqb_refl.
  - now rewrite IH.
Qed.

Lemma existsb_app_false (f : N -> bool) (a b : pystr) :
  existsb f (a ++ b) = false -> existsb f a = false /\ existsb f b = false.
Proof. rewrite existsb_app. apply orb_false_iff. Qed.

(** X5: [os.path.splitext] cuts the path in two: root and extension put
    together give the path back, and the extension is empty or is a dot
    followed by characters among which there is neither a dot nor a
    separator. *)
Theorem splitext_roundtrip (p : pystr) :
  fst (OsPath.splitext p) ++ snd (OsPath.splitext p) = p
  /\ (snd (OsPath.splitext p) = []
      \/ exists e, snd (OsPath.splitext p) = DOT :: e
                   /\ existsb (N.eqb DOT) e = false
                   /\ existsb (N.eqb SLASH) e = false).
Proof.
  unfold OsPath.splitext.
  destruct (OsPath.rsplit_after SLASH p) as [[dir base]|] eqn:Hsep.
  - destruct (rsplit_after_Some _ _ _ _ Hsep) as (Hp & _ & Hbase).
    destruct (OsPath.rsplit_after DOT base) as [[h t]|] eqn:Hdot;
      [|cbn [fst snd]; rewrite app_nil_r; auto].
    destruct (rsplit_after_Some _ _ _ _ Hdot) as (Hb & [h' ->] & Ht).
    rewrite removelast_last.
    destruct (forallb (N.eqb DOT) h'); cbn [fst snd];
      [rewrite app_nil_r; auto|].
    split.
    + rewrite Hp, Hb, <- !app_assoc. reflexivity.
    + right. exists t. repeat split; [assumption|].
      rewrite Hb in Hbase. now apply existsb_app_false in Hbase.
  - pose proof (rsplit_after_None _ _ Hsep) as Hbase.
    destruct (OsPath.rsplit_after DOT p) as [[h t]|] eqn:Hdot;
      [|cbn [fst snd]; rewrite app_nil_r; auto].
    destruct (rsplit_after_Some _ _ _ _ Hdot) as (Hb & [h' ->] & Ht).
    rewrite removelast_last.
    destruct (forallb (N.eqb DOT) h'); cbn [fst snd];
      [rewrite app_nil_r; auto|].
    split.
    + rewrite Hb. cbn [app]. rewrite <- !app_assoc. reflexivity.
    + right. exists t. repeat split; [assumption|].
      rewrite Hb in Hbase. now apply existsb_app_false in Hbase.
Qed.

Lemma no_separator_relative (name : pystr) :
  existsb (N.eqb SLASH) name = false -> startswith name [SLASH] = false.
Proof.
  destruct name as [|c r]; [reflexivity|].
  cbn [existsb startswith]. intros H. apply orb_false_iff in H.
  destruct H as [-> _]. reflexivity.
Qed.

Lemma endswith_false_last (path : pystr) :
  path <> [] -> endswith path [SLASH] = false ->
  exists c r, rev path = c :: r /\ c <> SLASH.
Proof.
  intros Hne. unfold endswith. cbn [rev app].
  destruct (rev path) as [|c r] eqn:Hrev.
  - apply (f_equal (@rev N)) in Hrev. rewrite rev_involutive in Hrev.
    now destruct Hne.
  - cbn [startswith]. intros H. exists c, r. split; [reflexivity|].
    intros ->. now rewrite N.eqb_refl in H.
Qed.

(** X6: joining a name to a directory and splitting the result gives the
    two back, for a directory path that is non-empty and does not end with
    the separator and a name without separator; so the path of every
    scanned entry has the scanned directory for [os.path.dirname]. *)
Theorem split_join (path name : pystr) :
  path <> [] -> endswith path [SLASH] = false ->
  existsb (N.eqb SLASH) name = false ->
  OsPath.split (OsPath.join path [name]) = (path, name)
  /\ OsPath.dirname (OsPath.join path [name]) = path.
Proof.
  intros Hne Hend Hname.
  assert (Hsplit : OsPath.split (OsPath.join path [name]) = (path, name)).
  { unfold OsPath.join; cbn [fold_left]. unfold OsPath.join1.
    rewrite (no_separator_relative _ Hname), Hend.
    destruct path as [|p0 path'] eqn:Hpath; [congruence|]. rewrite <- Hpath in *.
    unfold OsPath.split. cbn [app]. rewrite (rsplit_after_last _ _ _ Hname).
    destruct (endswith_false_last path Hne Hend) as (c & r & Hrev & Hc).
    assert (Hall : forallb (N.eqb SLASH) (path ++ [SLASH]) = false).
    { rewrite forallb_app. apply andb_false_iff. left.
      rewrite <- (rev_involutive path), Hrev. cbn [rev].
      rewrite forallb_app. apply andb_false_iff. right.
      cbn [forallb]. destruct (N.eqb_spec SLASH c); [congruence|reflexivity]. }
    rewrite Hall.
    assert (Hstrip : OsPath.rstrip SLASH (path ++ [SLASH]) = path).
    { unfold OsPath.rstrip. rewrite rev_app_distr. cbn [rev app OsPath.lstrip].
      rewrite N.eqb_refl, Hrev. cbn [OsPath.lstrip].
      destruct (N.eqb_spec c SLASH); [congruence|].
      now rewrite <- Hrev, rev_involutive. }
    rewrite Hstrip.
    destruct (path ++ [SLASH]) eqn:Happ; [now destruct path|reflexivity]. }
  split; [exact Hsplit|]. unfold OsPath.dirname. now rewrite Hsplit.
Qed.

Lemma split_join_witness :
  OsPath.split (OsPath.join (str "/r/images") [str "photo.jpg"])
    = (str "/r/images", str "photo.jpg")
  /\ OsPath.dirname (OsPath.join (str "/r/images") [str "photo.jpg"])
     = str "/r/images".
Proof. apply split_join; [discriminate|reflexivity|reflexivity]. Defined.

(** ** set_dest_path, further *)

Lemma first_free_bound (fs0 : filesystem) (path file_name ext : pystr)
    (n : nat) (i j : N) :
  first_free fs0 path file_name ext n i = Some j -> j < i + N.of_nat n.
Proof.
  revert i; induction n as [|n IH]; intros i; cbn [first_free]; [discriminate|].
  destruct (negb (os_path_exists fs0 (probe path file_name ext i))).
  - intros [= <-]. lia.
  - intros H. apply IH in H. lia.
Qed.

(** X7: the resolver returns the candidate itself or the candidate with
    [_i] put between name and extension, for an [i] from 1 to 999999; it
    numbers the name only when the candidate exists, and with the first
    [i] whose probe does not exist. *)
Theorem set_dest_path_shape (fs0 : filesystem) (path file_name ext : pystr) :
  set_dest_path fs0 path file_name ext = OsPath.join path [file_name ++ ext]
  \/ exists i,
       1 <= i <= 999999
       /\ os_path_exists fs0 (OsPath.join path [file_name ++ ext]) = true
       /\ os_path_exists fs0 (probe path file_name ext i) = false
       /\ (forall k, 1 <= k < i ->
             os_path_exists fs0 (probe path file_name ext k) = true)
       /\ set_dest_path fs0 path file_name ext
          = OsPath.join path [file_name ++ [UNDERSCORE] ++ str_of_N i ++ ext].
Proof.
  unfold set_dest_path.
  destruct (os_path_exists fs0 (OsPath.join path [file_name ++ ext])); [|now left].
  destruct (first_free fs0 path file_name ext (N.to_nat 999999) 1) as [i|] eqn:Hi;
    [|now left].
  right. exists i.
  destruct (first_free_least _ _ _ _ _ _ _ Hi) as (Hfree & Hle & Hbefore).
  pose proof (first_free_bound _ _ _ _ _ _ _ Hi) as Hlt.
  rewrite N2Nat.id in Hlt.
  repeat split; try assumption; try lia.
  now rewrite <- !app_assoc.
Qed.

(** X8: when [path] ends with the separator, the resolver keeps its
    promise, provided one of the 999999 numbered names is free: the path
    it returns does not exist, and it is the candidate itself or the
    numbered candidate with the least number that is free in the
    directory. *)
Theorem set_dest_path_first_free (fs0 : filesystem) (path file_name ext : pystr) :
  endswith path [SLASH] = true ->
  startswith file_name [SLASH] = false ->
  first_free fs0 path file_name ext (N.to_nat 999999) 1 <> None ->
  let numbered := fun k : N =>
    OsPath.join path [(file_name ++ [UNDERSCORE] ++ str_of_N k) ++ ext] in
  os_path_exists fs0 (set_dest_path fs0 path file_name ext) = false
  /\ (set_dest_path fs0 path file_name ext = OsPath.join path [file_name ++ ext]
      \/ exists i,
           set_dest_path fs0 path file_name ext = numbered i
           /\ forall k, 1 <= k < i -> os_path_exists fs0 (numbered k) = true).
Proof.
  intros Hend Hrel Hsome numbered. subst numbered. unfold set_dest_path.
  destruct (os_path_exists fs0 (OsPath.join path [file_name ++ ext])) eqn:Hcand;
    [|now split; [exact Hcand|left]].
  destruct (first_free fs0 path file_name ext (N.to_nat 999999) 1) as [i|] eqn:Hi;
    [|congruence].
  destruct (first_free_least _ _ _ _ _ _ _ Hi) as (Hfree & _ & Hbefore).
  split.
  - now rewrite <- (probe_with_separator path file_name ext i Hend Hrel).
  - right. exists i. split; [reflexivity|].
    intros k Hk.
    rewrite <- (probe_with_separator path file_name ext k Hend Hrel). auto.
Qed.

Lemma set_dest_path_first_free_witness :
  os_path_exists Examples.fs_photos
    (set_dest_path Examples.fs_photos (str "/r/images/") (str "photo") (str ".jpg"))
  = false.
Proof.
  apply (set_dest_path_first_free Examples.fs_photos
           (str "/r/images/") (str "photo") (str ".jpg"));
    [reflexivity|reflexivity|].
  vm_compute. discriminate.
Defined.

(** ** get_path, further *)

(** X9: with no argument or with more than one, [get_path] exits with the
    message for that case and the usage line, whatever the filesystem
    holds, and leaves the world as it is. *)
Theorem get_path_wrong_argument_count (argv : list pystr) (w : world) :
  List.length argv <> 2%nat ->
  get_path argv w
  = (Raise (SystemExit
              ((if Nat.ltb (List.length argv) 2
                then str "Too few command-line arguments."
                else str "Too many command line arguments.")
               ++ [NEWLINE] ++ exit_help (nth 0 argv []))), w).
Proof.
  intros Hlen. unfold get_path.
  destruct (Nat.ltb (List.length argv) 2) eqn:Hfew; [reflexivity|].
  destruct (Nat.ltb 2 (List.length argv)) eqn:Hmany; [reflexivity|].
  apply PeanoNat.Nat.ltb_ge in Hfew, Hmany. lia.
Qed.

Lemma get_path_wrong_argument_count_witness :
  exists message,
    get_path [str "sort_in_threads.py"] (Examples.world_of Examples.fs_mydir)
    = (Raise (SystemExit message), Examples.world_of Examples.fs_mydir).
Proof.
  eexists.
  apply (get_path_wrong_argument_count [str "sort_in_threads.py"]).
  discriminate.
Defined.

(** X10: a path [get_path] returns is the one argument given, it names a
    directory, and the world is as before. *)
Theorem get_path_returns_directory (argv : list pystr) (w w' : world)
    (folder_path : pystr) :
  get_path argv w = (Ok folder_path, w') ->
  w' = w
  /\ (exists argv0, argv = [argv0; folder_path])
  /\ os_path_isdir (fs w) folder_path = true
  /\ os_path_exists (fs w) (OsPath.dirname folder_path) = true.
Proof.
  unfold get_path.
  destruct (Nat.ltb (List.length argv) 2) eqn:Hfew; [discriminate|].
  destruct (Nat.ltb 2 (List.length argv)) eqn:Hmany; [discriminate|].
  apply PeanoNat.Nat.ltb_ge in Hfew, Hmany.
  destruct argv as [|argv0 [|arg [|x argv]]]; cbn [List.length] in *; try lia.
  cbn [nth].
  destruct (os_path_exists (fs w) (OsPath.dirname arg)) eqn:Hparent;
    [|discriminate].
  destruct (os_path_isdir (fs w) arg) eqn:Hdir; [|discriminate].
  intros [= <- <-]. repeat split; eauto.
Qed.

Lemma get_path_returns_directory_witness :
  os_path_isdir Examples.fs_photos (str "/r/images") = true.
Proof.
  apply (get_path_returns_directory [str "sort_in_threads.py"; str "/r/images"]
           (Examples.world_of Examples.fs_photos)
           (Examples.world_of Examples.fs_photos) (str "/r/images")).
  vm_compute. reflexivity.
Defined.

(** ** prepare_folder, further *)

Lemma fs_lookup_remove (f : filesystem) (q p : pystr) :
  fs_lookup (fs_remove f q) p = if eqb p q then None else fs_lookup f p.
Proof.
  induction f as [|[q' k] f IH]; cbn [fs_remove fs_lookup].
  - now destruct (eqb p q).
  - destruct (pystr_eqb_spec q q') as [<-|Hq]; cbn [fs_lookup].
    + rewrite IH. now destruct (eqb p q).
    + rewrite IH. destruct (pystr_eqb_spec p q') as [->|Hp]; [|reflexivity].
      destruct (pystr_eqb_spec q' q); [congruence|reflexivity].
Qed.

Lemma only_directories_removed_refl (w : world) : only_directories_removed w w.
Proof.
  split; [reflexivity|]. split; [exists []; now rewrite app_nil_r|].
  split; auto.
Qed.

Lemma only_directories_removed_trans (w1 w2 w3 : world) :
  only_directories_removed w1 w2 -> only_directories_removed w2 w3 ->
  only_directories_removed w1 w3.
Proof.
  intros (Hout1 & [r1 Hc1] & Hf1 & Hn1) (Hout2 & [r2 Hc2] & Hf2 & Hn2).
  split; [congruence|]. split; [|split; auto].
  exists (r1 ++ r2). now rewrite Hc2, Hc1, map_app, app_assoc.
Qed.

(** [os.rmdir] removes a directory and nothing else. *)
Lemma os_rmdir_only_directory (w : world) (p : pystr) (r : result unit) (w' : world) :
  perform (Rmdir p) (fun fs => os_rmdir fs p) w = (r, w') ->
  only_directories_removed w w'.
Proof.
  unfold perform, os_rmdir.
  destruct (os_path_isdir (fs w) p) eqn:Hdir.
  - destruct (entries_of (fs w) p); intros [= <- <-];
      unfold only_directories_removed; cbn [fs calls stdout].
    + split; [reflexivity|]. split; [now exists [p]|]. split.
      * intros q Hq. rewrite fs_lookup_remove.
        destruct (pystr_eqb_spec q p) as [->|]; [|assumption].
        unfold os_path_isdir in Hdir. destruct p; [discriminate|].
        rewrite Hq in Hdir. discriminate.
      * intros q k. rewrite fs_lookup_remove. now destruct (eqb q p).
    + split; [reflexivity|]. split; [now exists [p]|]. split; auto.
  - intros [= <- <-]; unfold only_directories_removed; cbn [fs calls stdout].
    split; [reflexivity|]. split; [now exists [p]|]. split; auto.
Qed.

Section PrepareFurther.

Variable unicode_db : N -> bool.
Variable os_renames : filesystem -> pystr -> pystr -> result filesystem.

(** After the listing and the removal, an item leaves the world alone. *)
Lemma prepare_item_world (path : pystr) (st : list pystr * list DirEntry)
    (item : DirEntry) (w : world)
    (r : result (list pystr * list DirEntry)) (w' : world) :
  prepare_item unicode_db os_renames path st item w = (r, w') ->
  only_directories_removed w w'.
Proof.
  unfold prepare_item. destruct st as [subdirectories files].
  destruct (de_is_dir item).
  2:{ intros [= <- <-]. apply only_directories_removed_refl. }
  unfold bind at 1, query.
  destruct (os_listdir (fs w) (de_path item)) as [temp_list|e].
  2:{ intros [= <- <-]. apply only_directories_removed_refl. }
  unfold bind at 1.
  destruct ((if Nat.eqb (List.length temp_list) 0
             then perform (Rmdir (de_path item))
                    (fun fs => os_rmdir fs (de_path item))
             else ret tt) w) as [r1 w1] eqn:Hrm.
  assert (H1 : only_directories_removed w w1).
  { destruct (Nat.eqb (List.length temp_list) 0).
    - eapply os_rmdir_only_directory; eauto.
    - injection Hrm as <- <-. apply only_directories_removed_refl. }
  destruct r1 as [[]|e]; [|now intros [= <- <-]].
  destruct (str_in (de_name item) category_names); cbn [negb];
    [now intros [= <- <-]|].
  destruct (eqb (normalize unicode_db (de_name item)) (de_name item)); cbn [negb];
    [now intros [= <- <-]|].
  unfold bind at 1.
  destruct (sibling_loop path (normalize unicode_db (de_name item)) files
              (OsPath.join path [normalize unicode_db (de_name item)]) w1)
    as [-> | ->]; [|now intros [= <- <-]].
  unfold bind at 1. rewrite rename_attempt_raises. now intros [= <- <-].
Qed.

Lemma for_each_prepare_world (path : pystr) (items : list DirEntry) :
  forall (st : list pystr * list DirEntry) (w : world)
         (r : result (list pystr * list DirEntry)) (w' : world),
  for_each items (prepare_item unicode_db os_renames path) st w = (r, w') ->
  only_directories_removed w w'.
Proof.
  induction items as [|item items IH]; intros st w r w'; cbn [for_each].
  - intros [= <- <-]. apply only_directories_removed_refl.
  - unfold bind at 1.
    destruct (prepare_item unicode_db os_renames path st item w)
      as [[st1|e] w1] eqn:Hitem; intros Hrest.
    + eapply only_directories_removed_trans.
      * eapply prepare_item_world; eauto.
      * eapply IH; eauto.
    + injection Hrest as <- <-. eapply prepare_item_world; eauto.
Qed.

(** What an item adds when it does not raise. *)
Lemma prepare_item_ok_exact (path : pystr) (subdirectories : list pystr)
    (files : list DirEntry) (item : DirEntry) (w w' : world)
    (st' : list pystr * list DirEntry) :
  prepare_item unicode_db os_renames path (subdirectories, files) item w
    = (Ok st', w') ->
  st' = (subdirectories
           ++ (if is_subdirectory_to_visit item
               then [OsPath.join path [de_name item]] else []),
         files ++ (if is_file_entry item then [item] else []))
  /\ (is_subdirectory_to_visit item = true ->
      normalize unicode_db (de_name item) = de_name item).
Proof.
  unfold prepare_item, is_subdirectory_to_visit, is_file_entry.
  destruct (de_is_dir item); cbn [negb andb].
  2:{ intros [= <- <-]. rewrite app_nil_r. split; [reflexivity|discriminate]. }
  unfold bind at 1, query.
  destruct (os_listdir (fs w) (de_path item)) as [temp_list|e]; [|discriminate].
  unfold bind at 1.
  destruct ((if Nat.eqb (List.length temp_list) 0
             then perform (Rmdir (de_path item))
                    (fun fs => os_rmdir fs (de_path item))
             else ret tt) w) as [[[]|e] w1]; [|discriminate].
  destruct (str_in (de_name item) category_names); cbn [negb].
  { intros [= <- <-]. rewrite !app_nil_r. split; [reflexivity|discriminate]. }
  destruct (eqb (normalize unicode_db (de_name item)) (de_name item)) eqn:Hnorm;
    cbn [negb].
  - apply pystr_eqb_eq in Hnorm. intros [= <- <-].
    rewrite Hnorm, app_nil_r. split; [reflexivity|auto].
  - unfold bind at 1.
    destruct (sibling_loop path (normalize unicode_db (de_name item)) files
                (OsPath.join path [normalize unicode_db (de_name item)]) w1)
      as [-> | ->]; [|discriminate].
    unfold bind at 1. rewrite rename_attempt_raises. discriminate.
Qed.

Lemma for_each_prepare_exact (path : pystr) (items : list DirEntry) :
  forall (subdirectories : list pystr) (files : list DirEntry) (w w' : world)
         (st' : list pystr * list DirEntry),
  for_each items (prepare_item unicode_db os_renames path)
    (subdirectories, files) w = (Ok st', w') ->
  st' = (subdirectories
           ++ map (fun item => OsPath.join path [de_name item])
                  (filter is_subdirectory_to_visit items),
         files ++ filter is_file_entry items)
  /\ Forall (fun item => is_subdirectory_to_visit item = true ->
                         normalize unicode_db (de_name item) = de_name item)
            items.
Proof.
  induction items as [|item items IH]; intros subdirectories files w w' st';
    cbn [for_each filter map].
  - intros [= <- <-]. rewrite !app_nil_r. split; [reflexivity|constructor].
  - unfold bind at 1.
    destruct (prepare_item unicode_db os_renames path (subdirectories, files) item w)
      as [[st1|e] w1] eqn:Hitem; [|discriminate].
    intros Hrest.
    destruct (prepare_item_ok_exact _ _ _ _ _ _ _ Hitem) as [-> Hnorm].
    destruct (IH _ _ _ _ _ Hrest) as [-> Hall].
    split; [|now constructor].
    destruct (is_subdirectory_to_visit item), (is_file_entry item);
      cbn [map app]; rewrite <- ?app_assoc, ?app_nil_r; reflexivity.
Qed.

End PrepareFurther.

(** X11: whatever its outcome, [prepare_folder] prints nothing, issues no
    call but [os.rmdir], loses no file and creates nothing: the message
    about too many directories is never printed and no directory is ever
    renamed. *)
Theorem prepare_folder_only_removes_directories
    (unicode_db : N -> bool)
    (os_renames : filesystem -> pystr -> pystr -> result filesystem)
    (path : pystr) (w : world) :
  only_directories_removed w
    (snd (prepare_folder unicode_db os_renames path w)).
Proof.
  unfold prepare_folder. unfold bind at 1, query.
  destruct (os_scandir (fs w) path) as [folder_items|e];
    [|apply only_directories_removed_refl].
  unfold bind at 1.
  destruct (for_each folder_items (prepare_item unicode_db os_renames path)
              ([], []) w) as [[[subs files]|e] w1] eqn:Hloop; cbn [snd];
    eapply for_each_prepare_world; eauto.
Qed.

(** X12: when [prepare_folder] returns, what it returns is read off the
    scan of [path]: the files are the entries that are no directories, in
    scan order; the subdirectories are the directories whose name is no
    category name, under their own names, in scan order; and every one of
    these names is a name [normalize] leaves as it is. *)
Theorem prepare_folder_returns_scan
    (unicode_db : N -> bool)
    (os_renames : filesystem -> pystr -> pystr -> result filesystem)
    (path : pystr) (w w' : world)
    (subdirectories : list pystr) (files_dict : dict (list DirEntry)) :
  prepare_folder unicode_db os_renames path w
    = (Ok (subdirectories, files_dict), w') ->
  let folder_items := entries_of (fs w) path in
  subdirectories
    = map (fun item => OsPath.join path [de_name item])
          (filter is_subdirectory_to_visit folder_items)
  /\ files_dict = [(path, filter is_file_entry folder_items)]
  /\ Forall (fun item => is_subdirectory_to_visit item = true ->
                         normalize unicode_db (de_name item) = de_name item)
            folder_items.
Proof.
  unfold prepare_folder. unfold bind at 1, query. unfold os_scandir.
  destruct (os_path_isdir (fs w) path); [|discriminate].
  unfold bind at 1.
  destruct (for_each (entries_of (fs w) path)
              (prepare_item unicode_db os_renames path) ([], []) w)
    as [[[subs files]|e] w1] eqn:Hloop; [|discriminate].
  intros [= <- <- <-]. cbv zeta.
  destruct (for_each_prepare_exact _ _ _ _ _ _ _ _ _ Hloop) as [Heq Hall].
  injection Heq as -> ->. repeat split; auto.
Qed.

Lemma prepare_folder_returns_scan_witness :
  [str "/r/old_empty"]
  = map (fun item => OsPath.join (str "/r") [de_name item])
        (filter is_subdirectory_to_visit
                (entries_of Examples.fs_old_empty (str "/r"))).
Proof.
  apply (prepare_folder_returns_scan Examples.db0 Platform.os_renames (str "/r")
           (Examples.world_of Examples.fs_old_empty)
           (mkWorld [(str "/r", Dir)] [Rmdir (str "/r/old_empty")] [])
           [str "/r/old_empty"] [(str "/r", [])]).
  vm_compute. reflexivity.
Defined.

(** X13: a directory that holds a subdirectory whose name is no category
    name and is changed by [normalize] cannot be prepared:
    [prepare_folder] does not return for it. *)
Theorem prepare_folder_fails_on_unnormalized_name
    (unicode_db : N -> bool)
    (os_renames : filesystem -> pystr -> pystr -> result filesystem)
    (path : pystr) (w : world) (item : DirEntry) :
  In item (entries_of (fs w) path) ->
  de_is_dir item = true ->
  str_in (de_name item) category_names = false ->
  normalize unicode_db (de_name item) <> de_name item ->
  exists e, fst (prepare_folder unicode_db os_renames path w) = Raise e.
Proof.
  intros Hin Hdir Hcat Hnorm.
  destruct (prepare_folder unicode_db os_renames path w) as [[[subs fd]|e] w'] eqn:Hrun;
    [|now exists e].
  unfold prepare_folder in Hrun. unfold bind at 1, query, os_scandir in Hrun.
  destruct (os_path_isdir (fs w) path); [|discriminate].
  unfold bind at 1 in Hrun.
  destruct (for_each (entries_of (fs w) path)
              (prepare_item unicode_db os_renames path) ([], []) w)
    as [[[subs' files]|e] w1] eqn:Hloop; [|discriminate].
  destruct (for_each_prepare_exact _ _ _ _ _ _ _ _ _ Hloop) as [_ Hall].
  rewrite Forall_forall in Hall. specialize (Hall item Hin).
  exfalso. apply Hnorm, Hall. unfold is_subdirectory_to_visit.
  now rewrite Hdir, Hcat.
Qed.

Lemma prepare_folder_fails_on_unnormalized_name_witness :
  exists e,
    fst (prepare_folder Examples.db0 Platform.os_renames (str "/r")
           (Examples.world_of Examples.fs_my_dir)) = Raise e.
Proof.
  apply (prepare_folder_fails_on_unnormalized_name Examples.db0
           Platform.os_renames (str "/r") (Examples.world_of Examples.fs_my_dir)
           (mkDirEntry (str "my dir") (str "/r/my dir") true)).
  - left. reflexivity.
  - reflexivity.
  - reflexivity.
  - vm_compute. discriminate.
Defined.

(** X21: an empty directory named like a category is removed like any
    other empty directory, and nothing else happens for it: it is neither
    normalized nor put on the list of subdirectories. *)
Theorem prepare_item_empty_category_directory
    (unicode_db : N -> bool)
    (os_renames : filesystem -> pystr -> pystr -> result filesystem)
    (path : pystr) (st : list pystr * list DirEntry) (item : DirEntry)
    (w : world) :
  de_is_dir item = true ->
  str_in (de_name item) category_names = true ->
  os_listdir (fs w) (de_path item) = Ok [] ->
  prepare_item unicode_db os_renames path st item w
  = (Ok st,
     mkWorld (fs_remove (fs w) (de_path item))
       (calls w ++ [Rmdir (de_path item)]) (stdout w))
  /\ os_path_exists (fs_remove (fs w) (de_path item)) (de_path item) = false.
Proof.
  intros Hdir Hcat Hls. split.
  - unfold prepare_item. destruct st as [subdirectories files]. rewrite Hdir.
    unfold bind at 1, query. rewrite Hls. cbn [List.length Nat.eqb].
    unfold bind at 1, perform, os_rmdir.
    unfold os_listdir in Hls.
    destruct (os_path_isdir (fs w) (de_path item)); [|discriminate].
    injection Hls as Hls. apply map_eq_nil in Hls. rewrite Hls.
    cbn [fs calls stdout]. now rewrite Hcat.
  - unfold os_path_exists. destruct (de_path item); [reflexivity|].
    now rewrite fs_lookup_remove, pystr_eqb_refl.
Qed.

Lemma prepare_item_empty_category_directory_witness :
  prepare_item Examples.db0 Platform.os_renames (str "/r") ([], [])
    (mkDirEntry (str "images") (str "/r/images") true)
    (Examples.world_of [(str "/r", Dir); (str "/r/images", Dir)])
  = (Ok ([], []), mkWorld [(str "/r", Dir)] [Rmdir (str "/r/images")] []).
Proof.
  apply (prepare_item_empty_category_directory Examples.db0 Platform.os_renames
           (str "/r") ([], []) (mkDirEntry (str "images") (str "/r/images") true)
           (Examples.world_of [(str "/r", Dir); (str "/r/images", Dir)]));
    reflexivity.
Defined.

(** ** create_report *)

Section ReportFacts.

Variable now : pystr.
Variable list_of_set : set pystr -> list pystr.

Lemma contain_data_fold (extensions : dict (set pystr)) (flag : bool) :
  fold_left (fun flag (kv : pystr * set pystr) =>
               if Nat.ltb 0 (List.length (snd kv)) then true else flag)
            extensions flag
  = flag || existsb has_entries extensions.
Proof.
  revert flag; induction extensions as [|kv r IH]; intros flag;
    cbn [fold_left existsb]; [now rewrite orb_false_r|].
  rewrite IH. change (has_entries kv) with (Nat.ltb 0 (List.length (snd kv))).
  destruct (Nat.ltb 0 (List.length (snd kv))); cbn [orb];
    [now rewrite orb_true_r|reflexivity].
Qed.

(** The loop over [extensions]: one line for each category that has
    extensions; the flag goes down as soon as there is one. *)
Lemma extensions_loop (extensions : dict (set pystr)) (fo : list pystr) (flag : bool) :
  fold_left
    (fun (s : list pystr * bool) (kv : pystr * set pystr) =>
       let (fo, no_transfered_data) := s in
       let (key, values) := kv in
       if Nat.ltb 0 (List.length values) then
         let values := list_of_set values in
         (fo ++ [key ++ str ": " ++ join_with (str " | ") values
                 ++ str ";" ++ [NEWLINE]],
          false)
       else (fo, no_transfered_data))
    extensions (fo, flag)
  = (fo ++ extension_lines list_of_set extensions,
     flag && negb (existsb has_entries extensions)).
Proof.
  revert fo flag; induction extensions as [|[key values] r IH]; intros fo flag.
  - cbn. now rewrite app_nil_r, andb_true_r.
  - cbn [fold_left]. unfold extension_lines. cbn [filter existsb].
    assert (Hh : has_entries (key, values) = Nat.ltb 0 (List.length values))
      by reflexivity.
    rewrite Hh.
    destruct (Nat.ltb 0 (List.length values)); rewrite IH;
      cbn [map orb negb andb fst snd].
    + unfold extension_lines. now rewrite <- app_assoc, andb_false_r.
    + reflexivity.
Qed.

Lemma values_loop (values : list pystr) (fo : list pystr) :
  fold_left (fun fo value => fo ++ [value ++ str ";" ++ [NEWLINE]]) values fo
  = fo ++ map (fun value => value ++ str ";" ++ [NEWLINE]) values.
Proof.
  revert fo; induction values as [|v r IH]; intros fo; cbn [fold_left map].
  - now rewrite app_nil_r.
  - now rewrite IH, <- app_assoc.
Qed.

(** The loop over [paths]: a heading and the records for each category
    that has records; a flag that is down stays down. *)
Lemma paths_loop (paths : dict (list pystr)) (fo : list pystr) (flag : bool) :
  fold_left
    (fun (s : list pystr * bool) (kv : pystr * list pystr) =>
       let (fo, no_transfered_data) := s in
       let (key, values) := kv in
       if Nat.ltb 0 (List.length values) then
         (fold_left (fun fo value => fo ++ [value ++ str ";" ++ [NEWLINE]])
                    values (fo ++ [key ++ str ":" ++ [NEWLINE]]),
          false)
       else (fo, no_transfered_data))
    paths (fo, flag)
  = (fo ++ record_lines paths, flag && negb (existsb has_entries paths)).
Proof.
  revert fo flag; induction paths as [|[key values] r IH]; intros fo flag.
  - cbn. now rewrite app_nil_r, andb_true_r.
  - cbn [fold_left]. unfold record_lines. cbn [filter existsb].
    assert (Hh : has_entries (key, values) = Nat.ltb 0 (List.length values))
      by reflexivity.
    rewrite Hh.
    destruct (Nat.ltb 0 (List.length values)); rewrite IH;
      cbn [flat_map orb negb andb fst snd].
    + unfold record_lines.
      rewrite values_loop, andb_false_r, <- !app_assoc. reflexivity.
    + reflexivity.
Qed.

(** The loops and flags of [create_report] amount to the closed form. *)
Lemma create_report_closed (extensions : dict (set pystr))
    (paths : dict (list pystr)) (path : pystr) (fo : list pystr) :
  create_report now list_of_set extensions paths path fo
  = fo ++ report_header now path :: report_body list_of_set extensions paths.
Proof.
  unfold create_report, report_body.
  rewrite contain_data_fold. cbn [orb].
  destruct (existsb has_entries extensions) eqn:Hdata.
  - rewrite extensions_loop, Hdata. cbn [andb negb].
    rewrite paths_loop. cbn [andb].
    rewrite <- !app_assoc. reflexivity.
  - rewrite <- app_assoc. reflexivity.
Qed.

End ReportFacts.

Lemma no_entries_iff {A : Type} (d : dict (list A)) :
  existsb has_entries d = false <-> Forall (fun kv => snd kv = []) d.
Proof.
  induction d as [|[k v] r IH]; cbn [existsb].
  - split; [constructor|reflexivity].
  - unfold has_entries at 1. cbn [snd]. split.
    + intros H. apply orb_false_iff in H. destruct H as [Hv Hr].
      constructor; [|now apply IH].
      destruct v; [reflexivity|discriminate].
    + intros H. inversion H as [|? ? Hv Hr]; subst. cbn [snd] in Hv. subst v.
      cbn. now apply IH.
Qed.

Lemma ends_with_newline_app (a b : pystr) :
  ends_with_newline b -> ends_with_newline (a ++ b).
Proof. intros [s ->]. exists (a ++ s). now rewrite app_assoc. Qed.

Lemma ends_with_newline_one : ends_with_newline [NEWLINE].
Proof. now exists []. Qed.

Lemma ends_with_newline_last (chunk : pystr) :
  ends_with_newline chunk -> last chunk 0 = NEWLINE.
Proof. intros [s ->]. apply last_last. Qed.

Lemma report_body_lines (list_of_set : set pystr -> list pystr)
    (extensions : dict (set pystr)) (paths : dict (list pystr)) :
  Forall ends_with_newline (report_body list_of_set extensions paths).
Proof.
  unfold report_body.
  destruct (existsb has_entries extensions).
  - repeat (apply Forall_app; split).
    + repeat constructor. apply ends_with_newline_app, ends_with_newline_one.
    + unfold extension_lines. apply Forall_forall. intros x Hx.
      apply in_map_iff in Hx. destruct Hx as (kv & <- & _).
      repeat apply ends_with_newline_app. apply ends_with_newline_one.
    + repeat constructor.
      repeat apply ends_with_newline_app. apply ends_with_newline_one.
    + unfold record_lines. apply Forall_forall. intros x Hx.
      apply in_flat_map in Hx. destruct Hx as (kv & _ & [<-|Hx]).
      * repeat apply ends_with_newline_app. apply ends_with_newline_one.
      * apply in_map_iff in Hx. destruct Hx as (v & <- & _).
        repeat apply ends_with_newline_app. apply ends_with_newline_one.
    + repeat constructor. apply ends_with_newline_app.
      exists (str "--------------------" ++ [NEWLINE]). reflexivity.
  - repeat constructor. apply ends_with_newline_app, ends_with_newline_one.
Qed.

(** X14: the report of a directory is the header line followed by
    [Nothing to sort.] exactly when no category has an extension;
    whatever [paths] holds is then left out. *)
Theorem create_report_nothing_to_sort
    (now : pystr) (list_of_set : set pystr -> list pystr)
    (extensions : dict (set pystr)) (paths : dict (list pystr))
    (path : pystr) (fo : list pystr) :
  create_report now list_of_set extensions paths path fo
    = fo ++ [report_header now path; str "Nothing to sort." ++ [NEWLINE]]
  <-> Forall (fun kv => snd kv = []) extensions.
Proof.
  rewrite create_report_closed, <- no_entries_iff. unfold report_body.
  destruct (existsb has_entries extensions); split; try reflexivity;
    try discriminate.
  intros H. apply app_inv_head in H. injection H as H _.
  vm_compute in H. discriminate.
Qed.

(** X15: [create_report] only appends: what the file held stays in front,
    the first string written is the header line, and every string written
    ends with a newline; so the [---] that the source would write for a
    section without data is never written. *)
Theorem create_report_appends_lines
    (now : pystr) (list_of_set : set pystr -> list pystr)
    (extensions : dict (set pystr)) (paths : dict (list pystr))
    (path : pystr) (fo : list pystr) :
  exists written,
    create_report now list_of_set extensions paths path fo
      = fo ++ report_header now path :: written
    /\ Forall ends_with_newline (report_header now path :: written)
    /\ ~ In (str "---") (report_header now path :: written).
Proof.
  exists (report_body list_of_set extensions paths).
  assert (Hlines : Forall ends_with_newline
                     (report_header now path
                        :: report_body list_of_set extensions paths)).
  { constructor; [|apply report_body_lines].
    unfold report_header. repeat apply ends_with_newline_app.
    apply ends_with_newline_one. }
  split; [apply create_report_closed|]. split; [exact Hlines|].
  intros Hin. rewrite Forall_forall in Hlines.
  apply Hlines, ends_with_newline_last in Hin. vm_compute in Hin. discriminate.
Qed.

(** ** move_files, further *)

Lemma bind_ok_inv {A B : Type} (m : M A) (k : A -> M B) (w w' : world) (b : B) :
  bind m k w = (Ok b, w') ->
  exists a w1, m w = (Ok a, w1) /\ k a w1 = (Ok b, w').
Proof.
  unfold bind. destruct (m w) as [[a|e] w1]; [|discriminate].
  intros H. now exists a, w1.
Qed.

Lemma dict_get_update {V : Type} (d : dict V) (k k' : pystr) (v : V) :
  dict_get (dict_update d k v) k' = if eqb k' k then Some v else dict_get d k'.
Proof.
  induction d as [|[k0 v0] r IH]; cbn [dict_update dict_get].
  - now destruct (eqb k' k).
  - destruct (pystr_eqb_spec k k0) as [<-|Hk]; cbn [dict_get].
    + now destruct (eqb k' k).
    + rewrite IH. destruct (pystr_eqb_spec k' k0) as [->|]; [|reflexivity].
      destruct (pystr_eqb_spec k0 k); [congruence|reflexivity].
Qed.

Lemma report_consistent_get (extensions : dict (set pystr))
    (paths : dict (list pystr)) (k : pystr) :
  report_consistent extensions paths ->
  dict_get extensions k = None <-> dict_get paths k = None.
Proof.
  induction 1 as [|[ke e] [kp p] es ps [Hk _] _ IH]; cbn [dict_get];
    [tauto|].
  cbn [fst] in Hk. subst kp. destruct (eqb k ke); [split; discriminate|exact IH].
Qed.

Lemma report_consistent_update (extensions : dict (set pystr))
    (paths : dict (list pystr)) (k : pystr) (s : set pystr) (l : list pystr) :
  report_consistent extensions paths ->
  dict_get extensions k <> None ->
  s <> [] -> l <> [] ->
  report_consistent (dict_update extensions k s) (dict_update paths k l).
Proof.
  intros Hcons Hget Hs Hl.
  induction Hcons as [|[ke e] [kp p] es ps [Hk Hiff] Hrest IH];
    cbn [dict_get] in Hget; [congruence|].
  cbn [fst snd] in *. subst kp. cbn [dict_update].
  destruct (eqb k ke).
  - constructor; [|assumption]. cbn [fst snd]. split; [reflexivity|tauto].
  - constructor; [|now apply IH]. cbn [fst snd]. tauto.
Qed.

Lemma report_keys_update {V : Type} (d : dict V) (k : pystr) (v : V) :
  dict_get d k <> None -> map fst (dict_update d k v) = map fst d.
Proof.
  induction d as [|[k0 v0] r IH]; cbn [dict_get dict_update]; [congruence|].
  destruct (eqb k k0); cbn [map fst]; [reflexivity|].
  intros H. now rewrite IH.
Qed.

Lemma set_add_str_nonempty (x : pystr) (s : set pystr) : set_add_str x s <> [].
Proof. apply set_add_not_empty. Qed.

Section MoveFurther.

Variable unicode_db : N -> bool.
Variable os_renames : filesystem -> pystr -> pystr -> result filesystem.
Variable shutil_unpack_archive : filesystem -> pystr -> pystr -> result filesystem.

Local Abbreviation sort_file :=
  (move_file unicode_db os_renames shutil_unpack_archive).

(** One file keeps the two dicts of the report together. *)
Lemma move_file_consistent (path : pystr)
    (extensions extensions' : dict (set pystr))
    (paths paths' : dict (list pystr)) (file : DirEntry) (w w' : world) :
  sort_file path (extensions, paths) file w = (Ok (extensions', paths'), w') ->
  report_consistent extensions paths ->
  report_consistent extensions' paths'
  /\ map fst extensions' = map fst extensions.
Proof.
  unfold move_file.
  destruct (OsPath.splitext (de_name file)) as [file_name ext].
  intros Hrun Hcons.
  apply bind_ok_inv in Hrun. destruct Hrun as (file_type & w1 & _ & Hrun).
  apply bind_ok_inv in Hrun. destruct Hrun as (moved & w2 & _ & Hrun).
  destruct moved as [dest_path|]; [|injection Hrun as <- <- <-; auto].
  unfold ret in Hrun. injection Hrun as <- <- <-.
  pose proof (report_consistent_get _ _ file_type Hcons) as Hnone.
  destruct (dict_get extensions file_type) as [temp_set|] eqn:Hext;
    destruct (dict_get paths file_type) as [temp_list|] eqn:Hpaths.
  - split.
    + apply report_consistent_update; auto.
      * congruence.
      * apply set_add_str_nonempty.
      * destruct (eqb file_type UNSORTED); now destruct temp_list.
    + apply report_keys_update. congruence.
  - destruct Hnone as [_ Hnone]. specialize (Hnone eq_refl). discriminate.
  - destruct Hnone as [Hnone _]. specialize (Hnone eq_refl). discriminate.
  - auto.
Qed.

Lemma for_each_move_consistent (path : pystr) (files : list DirEntry) :
  forall (extensions extensions' : dict (set pystr))
         (paths paths' : dict (list pystr)) (w w' : world),
  for_each files (sort_file path) (extensions, paths) w
    = (Ok (extensions', paths'), w') ->
  report_consistent extensions paths ->
  report_consistent extensions' paths'
  /\ map fst extensions' = map fst extensions.
Proof.
  induction files as [|file files IH];
    intros extensions extensions' paths paths' w w'; cbn [for_each].
  - intros [= <- <- <-]. auto.
  - intros Hrun Hcons. apply bind_ok_inv in Hrun.
    destruct Hrun as ([ext1 paths1] & w1 & Hfile & Hrest).
    destruct (move_file_consistent _ _ _ _ _ _ _ _ Hfile Hcons) as [Hcons1 Hkeys1].
    destruct (IH _ _ _ _ _ _ Hrest Hcons1) as [Hcons' Hkeys'].
    split; [assumption|congruence].
Qed.

End MoveFurther.

Lemma initial_report_consistent : report_consistent initial_extensions initial_paths.
Proof. repeat constructor; cbn; tauto. Qed.

(** X16: in what [move_files] returns, the two dicts go together: they
    have the six categories for keys, in the order of the source, and a
    category has extensions exactly when it has records; the returned
    path is the key of [files_dict]. *)
Theorem move_files_report_consistent
    (unicode_db : N -> bool)
    (os_renames shutil_unpack_archive :
       filesystem -> pystr -> pystr -> result filesystem)
    (files_dict : dict (list DirEntry)) (w w' : world)
    (extensions : dict (set pystr)) (paths : dict (list pystr)) (path : pystr) :
  move_files unicode_db os_renames shutil_unpack_archive files_dict w
    = (Ok (extensions, paths, path), w') ->
  report_consistent extensions paths
  /\ map fst extensions
     = [str "images"; str "documents"; str "audio"; str "video";
        str "archives"; str "unsorted"]
  /\ exists files rest, files_dict = (path, files) :: rest.
Proof.
  unfold move_files. destruct files_dict as [|[path0 files] rest]; [discriminate|].
  intros Hrun. apply bind_ok_inv in Hrun.
  destruct Hrun as ([ext1 paths1] & w1 & Hloop & Hret).
  injection Hret as <- <- <- <-.
  destruct (for_each_move_consistent _ _ _ _ _ _ _ _ _ _ _ Hloop
              initial_report_consistent) as [Hcons Hkeys].
  split; [assumption|]. split; [exact Hkeys|now exists files, rest].
Qed.

Lemma move_files_report_consistent_witness :
  exists extensions paths,
    report_consistent extensions paths
    /\ dict_get paths (str "images")
       = Some [str "/r/images/photo.jpg has moved to: /r/images/photo.jpg"].
Proof.
  eexists. eexists. split.
  - eapply (move_files_report_consistent Examples.db0 Platform.os_renames
              (Platform.shutil_unpack_archive Examples.members)
              [(str "/r", entries_of Examples.fs_sort (str "/r"))]
              (Examples.world_of Examples.fs_sort)).
    vm_compute. reflexivity.
  - vm_compute. reflexivity.
Defined.

(** X17: for a report that [move_files] returned, [create_report] writes
    [Nothing to sort.] exactly when no file was recorded. *)
Theorem move_files_then_create_report
    (unicode_db : N -> bool)
    (os_renames shutil_unpack_archive :
       filesystem -> pystr -> pystr -> result filesystem)
    (now : pystr) (list_of_set : set pystr -> list pystr)
    (files_dict : dict (list DirEntry)) (w w' : world)
    (extensions : dict (set pystr)) (paths : dict (list pystr)) (path : pystr)
    (fo : list pystr) :
  move_files unicode_db os_renames shutil_unpack_archive files_dict w
    = (Ok (extensions, paths, path), w') ->
  create_report now list_of_set extensions paths path fo
    = fo ++ [report_header now path; str "Nothing to sort." ++ [NEWLINE]]
  <-> Forall (fun kv => snd kv = []) paths.
Proof.
  unfold move_files. destruct files_dict as [|[path0 files] rest]; [discriminate|].
  intros Hrun. apply bind_ok_inv in Hrun.
  destruct Hrun as ([ext1 paths1] & w1 & Hloop & Hret).
  injection Hret as <- <- <- <-.
  destruct (for_each_move_consistent _ _ _ _ _ _ _ _ _ _ _ Hloop
              initial_report_consistent) as [Hcons _].
  rewrite create_report_closed, <- !no_entries_iff. unfold report_body.
  assert (Hsame : existsb has_entries ext1 = existsb has_entries paths1).
  { clear Hloop. induction Hcons as [|[ke e] [kp p] es ps [_ Hiff] _ IH];
      [reflexivity|].
    cbn [existsb]. rewrite IH. f_equal. unfold has_entries. cbn [snd] in *.
    destruct e, p; try reflexivity; exfalso.
    - destruct Hiff as [Hiff _]. specialize (Hiff eq_refl). discriminate.
    - destruct Hiff as [_ Hiff]. specialize (Hiff eq_refl). discriminate. }
  rewrite <- Hsame.
  destruct (existsb has_entries ext1); split; try reflexivity; try discriminate.
  intros H. apply app_inv_head in H. injection H as H _.
  vm_compute in H. discriminate.
Qed.

Lemma move_files_then_create_report_witness :
  create_report (str "2024-01-01 00:00:00") (fun s => s)
    initial_extensions initial_paths (str "/r") []
  = [report_header (str "2024-01-01 00:00:00") (str "/r");
     str "Nothing to sort." ++ [NEWLINE]].
Proof.
  apply (move_files_then_create_report Examples.db0 Platform.os_renames
           (Platform.shutil_unpack_archive Examples.members)
           (str "2024-01-01 00:00:00") (fun s => s)
           [(str "/r", [])] (Examples.world_of [(str "/r", Dir)])
           (Examples.world_of [(str "/r", Dir)])
           initial_extensions initial_paths (str "/r") []).
  - reflexivity.
  - repeat constructor.
Defined.

Section MoveUnsorted.

Variable unicode_db : N -> bool.
Variable os_renames : filesystem -> pystr -> pystr -> result filesystem.
Variable shutil_unpack_archive : filesystem -> pystr -> pystr -> result filesystem.

(** An unsorted file touches nothing and is recorded under [unsorted]. *)
Lemma move_file_unsorted (path : pystr) (extensions : dict (set pystr))
    (paths : dict (list pystr)) (file : DirEntry) (w : world) :
  is_unsorted file ->
  move_file unicode_db os_renames shutil_unpack_archive path
    (extensions, paths) file w
  = (Ok (match dict_get extensions UNSORTED with
         | Some temp_set =>
             dict_update extensions UNSORTED
               (set_add_str (snd (OsPath.splitext (de_name file))) temp_set)
         | None => extensions
         end,
         match dict_get paths UNSORTED with
         | Some temp_list =>
             dict_update paths UNSORTED
               (temp_list ++ [OsPath.join path [UNSORTED; de_name file]])
         | None => paths
         end), w).
Proof.
  unfold is_unsorted, move_file.
  destruct (OsPath.splitext (de_name file)) as [file_name ext]. cbn [snd].
  intros Hcat. rewrite match_ext_spec, Hcat.
  change (eqb UNSORTED (str "archives")) with false. cbv iota.
  unfold bind at 1, ret at 1. rewrite pystr_eqb_refl. cbn [negb].
  unfold bind at 1, ret at 1.
  destruct (dict_get paths UNSORTED), (dict_get extensions UNSORTED); reflexivity.
Qed.

Lemma for_each_move_unsorted (path : pystr) (files : list DirEntry) :
  forall (extensions : dict (set pystr)) (paths : dict (list pystr))
         (records : list pystr) (w : world),
  Forall is_unsorted files ->
  dict_get paths UNSORTED = Some records ->
  exists extensions' paths',
    for_each files
      (move_file unicode_db os_renames shutil_unpack_archive path)
      (extensions, paths) w
    = (Ok (extensions', paths'), w)
    /\ dict_get paths' UNSORTED
       = Some (records
               ++ map (fun file => OsPath.join path [UNSORTED; de_name file]) files)
    /\ forall c, eqb c UNSORTED = false -> dict_get paths' c = dict_get paths c.
Proof.
  induction files as [|file files IH]; intros extensions paths records w Hall Hget.
  - exists extensions, paths. cbn [for_each map]. rewrite app_nil_r. auto.
  - inversion Hall as [|? ? Hfile Hrest]; subst.
    cbn [for_each]. unfold bind at 1.
    rewrite (move_file_unsorted path extensions paths file w Hfile), Hget.
    edestruct (IH (match dict_get extensions UNSORTED with
                   | Some temp_set =>
                       dict_update extensions UNSORTED
                         (set_add_str (snd (OsPath.splitext (de_name file))) temp_set)
                   | None => extensions
                   end)
                  (dict_update paths UNSORTED
                     (records ++ [OsPath.join path [UNSORTED; de_name file]]))
                  (records ++ [OsPath.join path [UNSORTED; de_name file]])
                  w Hrest) as (extensions' & paths' & Hrun & Hrec & Hother).
    { rewrite dict_get_update. now rewrite pystr_eqb_refl. }
    exists extensions', paths'. split; [exact Hrun|]. split.
    + rewrite Hrec, <- app_assoc. reflexivity.
    + intros c Hc. rewrite (Hother c Hc), dict_get_update, Hc. reflexivity.
Qed.

End MoveUnsorted.

(** X18: a directory that holds only files of no known category is left
    as it is: [move_files] returns without a call, without a line printed
    and with the filesystem unchanged, and it records each file, in order,
    under [unsorted] with the path [path/unsorted/name]; the records of
    the five categories stay empty. *)
Theorem move_files_unsorted_only
    (unicode_db : N -> bool)
    (os_renames shutil_unpack_archive :
       filesystem -> pystr -> pystr -> result filesystem)
    (path : pystr) (files : list DirEntry)
    (rest : dict (list DirEntry)) (w : world) :
  Forall is_unsorted files ->
  exists extensions paths,
    move_files unicode_db os_renames shutil_unpack_archive
      ((path, files) :: rest) w
    = (Ok (extensions, paths, path), w)
    /\ dict_get paths UNSORTED
       = Some (map (fun file => OsPath.join path [UNSORTED; de_name file]) files)
    /\ forall c, In c category_names -> dict_get paths c = Some [].
Proof.
  intros Hall.
  destruct (for_each_move_unsorted unicode_db os_renames shutil_unpack_archive
              path files initial_extensions initial_paths [] w Hall eq_refl)
    as (extensions & paths & Hrun & Hrec & Hother).
  exists extensions, paths. unfold move_files. unfold bind at 1. rewrite Hrun.
  split; [reflexivity|]. split; [exact Hrec|].
  intros c Hc. rewrite Hother.
  - repeat (destruct Hc as [<-|Hc]; [reflexivity|]). destruct Hc.
  - repeat (destruct Hc as [<-|Hc]; [reflexivity|]). destruct Hc.
Qed.

Lemma move_files_unsorted_only_witness :
  exists extensions paths,
    move_files Examples.db0 Platform.os_renames
      (Platform.shutil_unpack_archive Examples.members)
      [(str "/r", entries_of MoreExamples.fs_unsorted (str "/r"))]
      (Examples.world_of MoreExamples.fs_unsorted)
    = (Ok (extensions, paths, str "/r"),
       Examples.world_of MoreExamples.fs_unsorted)
    /\ dict_get paths UNSORTED
       = Some [str "/r/unsorted/x.bin"; str "/r/unsorted/README";
               str "/r/unsorted/Photo.JPG"].
Proof.
  destruct (move_files_unsorted_only Examples.db0 Platform.os_renames
              (Platform.shutil_unpack_archive Examples.members)
              (str "/r") (entries_of MoreExamples.fs_unsorted (str "/r")) []
              (Examples.world_of MoreExamples.fs_unsorted))
    as (extensions & paths & Hrun & Hrec & _).
  - repeat constructor.
  - exists extensions, paths. split; [exact Hrun|exact Hrec].
Defined.

(** When [os.renames] raises [FileExistsError] for a file of a
    category, the file is skipped: [move_file] prints the message naming
    the normalized name, returns the report dicts as they were, and goes
    on; the call was issued with the path the resolver chose. *)
Lemma move_file_collision_skipped
    (unicode_db : N -> bool)
    (os_renames shutil_unpack_archive :
       filesystem -> pystr -> pystr -> result filesystem)
    (path : pystr) (st : dict (set pystr) * dict (list pystr))
    (file : DirEntry) (w w1 : world) (file_type : pystr) :
  let file_name := normalize unicode_db (fst (OsPath.splitext (de_name file))) in
  let ext := snd (OsPath.splitext (de_name file)) in
  let source := OsPath.join path [de_name file] in
  let dest := set_dest_path (fs w1) (OsPath.join path [file_type]) file_name ext in
  match_ext shutil_unpack_archive path file file_name ext w = (Ok file_type, w1) ->
  file_type <> UNSORTED ->
  os_renames (fs w1) source dest = Raise FileExistsError ->
  move_file unicode_db os_renames shutil_unpack_archive path st file w
  = (Ok st,
     mkWorld (fs w1) (calls w1 ++ [Renames source dest])
       (stdout w1
        ++ [str "File " ++ file_name ++ ext
            ++ str " has not been copied, because too many files with that name already exist in the destination directory."])).
Proof.
  intros file_name ext source dest Hmatch Hsorted Hraise.
  subst file_name ext source dest. unfold move_file. destruct st as [extensions paths].
  destruct (OsPath.splitext (de_name file)) as [file_name ext]. cbn [fst snd] in *.
  unfold bind at 1. rewrite Hmatch.
  apply pystr_eqb_neq in Hsorted. rewrite Hsorted. cbn [negb].
  unfold bind at 1. unfold bind at 1. cbn [call_set_dest_path].
  unfold try_except_FileExistsError, bind at 1.
  cbn [call_os_renames]. unfold perform. cbn [fs calls stdout].
  rewrite Hraise. reflexivity.
Qed.

Lemma for_each_app {A S : Type} (a b : list A) (body : S -> A -> M S) :
  forall (s : S) (w : world),
  for_each (a ++ b) body s w
  = (s' <- for_each a body s ;; for_each b body s') w.
Proof.
  induction a as [|x a IH]; intros s w; cbn [app for_each].
  - reflexivity.
  - unfold bind at 1 2 3. destruct (body s x w) as [[s1|e] w1]; [|reflexivity].
    rewrite IH. reflexivity.
Qed.

(** The run of [move_files] on a list of files, read backwards: the loop
    came through the list and left the report and the world returned. *)
Lemma move_files_ok_inv
    (unicode_db : N -> bool)
    (os_renames shutil_unpack_archive :
       filesystem -> pystr -> pystr -> result filesystem)
    (path path' : pystr) (files : list DirEntry) (rest : dict (list DirEntry))
    (w w' : world) (extensions : dict (set pystr)) (paths : dict (list pystr)) :
  move_files unicode_db os_renames shutil_unpack_archive ((path, files) :: rest) w
    = (Ok (extensions, paths, path'), w') ->
  for_each files (move_file unicode_db os_renames shutil_unpack_archive path)
    (initial_extensions, initial_paths) w
  = (Ok (extensions, paths), w').
Proof.
  unfold move_files. intros Hrun. apply bind_ok_inv in Hrun.
  destruct Hrun as ([ext1 paths1] & w1 & Hloop & Hret).
  injection Hret as <- <- _ <-. exact Hloop.
Qed.

(** X20: when unpacking raises for a file classified as an archive,
    wherever the file stands in the list of the directory, [move_files]
    raises the same exception at that file, once the files before it have
    been gone through: the archive has not been moved, no [os.renames] is
    issued for it, and no later file is looked at. *)
Theorem move_files_stops_at_bad_archive
    (unicode_db : N -> bool)
    (os_renames shutil_unpack_archive :
       filesystem -> pystr -> pystr -> result filesystem)
    (path : pystr) (before : list DirEntry) (file : DirEntry)
    (after : list DirEntry) (rest rest' : dict (list DirEntry))
    (w w1 : world) (extensions1 : dict (set pystr)) (paths1 : dict (list pystr))
    (e : exn) :
  let base := normalize unicode_db (fst (OsPath.splitext (de_name file))) in
  let ext := snd (OsPath.splitext (de_name file)) in
  let source := OsPath.join path [de_name file] in
  let extract_dir := OsPath.join path [str "archives"; base] in
  move_files unicode_db os_renames shutil_unpack_archive
    ((path, before) :: rest') w
    = (Ok (extensions1, paths1, path), w1) ->
  spec_category ext = str "archives" ->
  shutil_unpack_archive (fs w1) source extract_dir = Raise e ->
  move_files unicode_db os_renames shutil_unpack_archive
    ((path, before ++ file :: after) :: rest) w
  = (Raise e,
     mkWorld (fs w1) (calls w1 ++ [UnpackArchive source extract_dir]) (stdout w1)).
Proof.
  intros base ext source extract_dir Hbefore Harch Hunpack.
  apply move_files_ok_inv in Hbefore.
  unfold move_files. unfold bind at 1. rewrite for_each_app.
  unfold bind at 1. rewrite Hbefore. cbn [for_each]. unfold bind at 1.
  rewrite (move_file_unpack_raises unicode_db os_renames shutil_unpack_archive
             path (extensions1, paths1) file w1 e Harch Hunpack).
  reflexivity.
Qed.

Lemma move_files_stops_at_bad_archive_witness :
  move_files Examples.db0 Platform.os_renames
    (Platform.shutil_unpack_archive Examples.members)
    [(str "/r", entries_of MoreExamples.fs_photo_then_gz (str "/r"))]
    (Examples.world_of MoreExamples.fs_photo_then_gz)
  = (Raise ReadError,
     mkWorld [ (str "/r", Dir); (str "/r/images/photo.jpg", File);
               (str "/r/notes.gz", File); (str "/r/x.bin", File);
               (str "/r/images", Dir) ]
       [ Renames (str "/r/photo.jpg") (str "/r/images/photo.jpg");
         UnpackArchive (str "/r/notes.gz") (str "/r/archives/notes") ]
       []).
Proof.
  apply (move_files_stops_at_bad_archive Examples.db0 Platform.os_renames
           (Platform.shutil_unpack_archive Examples.members)
           (str "/r") [Examples.photo_jpg] MoreExamples.notes_gz
           [mkDirEntry (str "x.bin") (str "/r/x.bin") false] [] []
           (Examples.world_of MoreExamples.fs_photo_then_gz)
           (mkWorld [ (str "/r", Dir); (str "/r/images/photo.jpg", File);
                      (str "/r/notes.gz", File); (str "/r/x.bin", File);
                      (str "/r/images", Dir) ]
              [Renames (str "/r/photo.jpg") (str "/r/images/photo.jpg")] [])
           (dict_update initial_extensions (str "images") [str ".jpg"])
           (dict_update initial_paths (str "images")
              [str "/r/images/photo.jpg has moved to: /r/images/photo.jpg"])
           ReadError).
  - vm_compute. reflexivity.
  - reflexivity.
  - vm_compute. reflexivity.
Defined.
